(** * FHIR validation client: a shallow embedding of [src/validate.py] and
      [src/environment.py], and the properties of the validation pipeline.

    The Python code is embedded as it is written: JSON documents are a tree
    of Python values, exceptions are values of a result type that are caught
    by [isinstance] tests in the order of the source's [except] clauses, the
    locals of [validate_fhir_resource] that outlive an exception live in an
    explicit frame, and the calls made to the HTTP library are logged. *)

From Stdlib Require Import String Ascii List ZArith Bool Lia.
From Stdlib Require Import DecimalString.
From Corelib Require Import PrimFloat.
Import ListNotations.
Local Open Scope string_scope.
Local Open Scope Z_scope.

Set Implicit Arguments.

(* ===================================================================== *)
(** ** Python values *)
(* ===================================================================== *)

(** What [json.loads] and [response.json()] return. [JNull] is Python's
    [None]. A dict keeps its keys in insertion order (iterating a dict walks
    them in that order), hence the association list. *)
#[warnings="-register-all"] Inductive json : Type :=
| JNull
| JBool (b : bool)
| JInt (n : Z)
| JFloat (f : float)
| JStr (s : string)
| JList (items : list json)
| JDict (entries : list (string * json)).

Definition dict := list (string * json).

(** [d.get(key, default)] and [d.get(key)]. *)
Fixpoint dict_get (d : dict) (key : string) (default : json) : json :=
  match d with
  | [] => default
  | (k, v) :: rest => if String.eqb k key then v else dict_get rest key default
  end.

(** [key in d]. *)
Fixpoint dict_contains (d : dict) (key : string) : bool :=
  match d with
  | [] => false
  | (k, _) :: rest => String.eqb k key || dict_contains rest key
  end.

(** Truth value of a Python object, as tested by [if x:] and [not x]. *)
Definition truthy (v : json) : bool :=
  match v with
  | JNull => false
  | JBool b => b
  | JInt n => negb (n =? 0)
  | JFloat f => negb (PrimFloat.eqb f PrimFloat.zero)
  | JStr s => negb (String.eqb s "")
  | JList l => match l with [] => false | _ => true end
  | JDict d => match d with [] => false | _ => true end
  end.

(** [v == 'literal']: only a string equals a string literal. *)
Definition eq_str (v : json) (lit : string) : bool :=
  match v with
  | JStr s => String.eqb s lit
  | _ => false
  end.

Definition isinstance_dict (v : json) : bool :=
  match v with JDict _ => true | _ => false end.

Definition isinstance_str (v : json) : bool :=
  match v with JStr _ => true | _ => false end.

Definition type_name (v : json) : string :=
  match v with
  | JNull => "NoneType"
  | JBool _ => "bool"
  | JInt _ => "int"
  | JFloat _ => "float"
  | JStr _ => "str"
  | JList _ => "list"
  | JDict _ => "dict"
  end.

(** Decimal rendering of an integer, [str(n)]. *)
Definition str_of_int (n : Z) : string :=
  NilZero.string_of_int (Z.to_int n).

(* ===================================================================== *)
(** ** Exceptions *)
(* ===================================================================== *)

(** The exception classes the pipeline can meet, all below [Exception]:
    the builtins, [json.JSONDecodeError], the hierarchy of
    [requests.exceptions] and [dataclasses.FrozenInstanceError].
    [OtherException] stands for any further subclass of [Exception]. What
    the interpreter delivers from outside the program ([KeyboardInterrupt],
    [SystemExit]) is not the failure of an operation and is not modelled. *)
Inductive exn_class : Type :=
| PyException
| ValueError
| TypeError
| AttributeError
| RecursionError
| JSONDecodeError
| RequestException
| Timeout
| ConnectionError
| ConnectTimeout
| ReadTimeout
| InvalidJSONError
| RequestsJSONDecodeError
| FrozenInstanceError
| OtherException.

Definition exn_class_eqb (a b : exn_class) : bool :=
  match a, b with
  | PyException, PyException | ValueError, ValueError | TypeError, TypeError
  | AttributeError, AttributeError | RecursionError, RecursionError
  | JSONDecodeError, JSONDecodeError | RequestException, RequestException
  | Timeout, Timeout | ConnectionError, ConnectionError
  | ConnectTimeout, ConnectTimeout | ReadTimeout, ReadTimeout
  | InvalidJSONError, InvalidJSONError
  | RequestsJSONDecodeError, RequestsJSONDecodeError
  | FrozenInstanceError, FrozenInstanceError
  | OtherException, OtherException => true
  | _, _ => false
  end.

(** The classes an exception class derives from, itself included. In
    [requests], [ConnectTimeout] derives from both [ConnectionError] and
    [Timeout], and its [JSONDecodeError] from both [InvalidJSONError] and
    [json.JSONDecodeError]. *)
Definition bases (c : exn_class) : list exn_class :=
  match c with
  | PyException => [PyException]
  | ValueError => [ValueError; PyException]
  | TypeError => [TypeError; PyException]
  | AttributeError => [AttributeError; PyException]
  | RecursionError => [RecursionError; PyException]
  | JSONDecodeError => [JSONDecodeError; ValueError; PyException]
  | RequestException => [RequestException; PyException]
  | Timeout => [Timeout; RequestException; PyException]
  | ConnectionError => [ConnectionError; RequestException; PyException]
  | ConnectTimeout =>
      [ConnectTimeout; ConnectionError; Timeout; RequestException; PyException]
  | ReadTimeout => [ReadTimeout; Timeout; RequestException; PyException]
  | InvalidJSONError => [InvalidJSONError; RequestException; PyException]
  | RequestsJSONDecodeError =>
      [RequestsJSONDecodeError; InvalidJSONError; JSONDecodeError;
       RequestException; ValueError; PyException]
  | FrozenInstanceError => [FrozenInstanceError; AttributeError; PyException]
  | OtherException => [OtherException; PyException]
  end.

(** A raised exception: its class and [str(e)]. *)
Record exn : Type := mkExn { exn_cls : exn_class; exn_str : string }.

Definition isinstance (e : exn) (c : exn_class) : bool :=
  existsb (exn_class_eqb c) (bases (exn_cls e)).

(** The outcome of an expression that may raise. *)
Inductive result (A : Type) : Type :=
| Return (a : A)
| Raise (e : exn).
Arguments Return {A} a.
Arguments Raise {A} e.

Definition rbind {A B} (r : result A) (k : A -> result B) : result B :=
  match r with
  | Return a => k a
  | Raise e => Raise e
  end.

Declare Scope result_scope.
Delimit Scope result_scope with result.
Notation "'let?' x ':=' c 'in' k" := (rbind c (fun x => k))
  (at level 10, x name, c at level 100, k at level 200) : result_scope.

(* ===================================================================== *)
(** ** Iteration and [str.join] *)
(* ===================================================================== *)

Fixpoint chars (s : string) : list json :=
  match s with
  | EmptyString => []
  | String c rest => JStr (String c EmptyString) :: chars rest
  end.

(** The items [for x in v] walks through: the elements of a list, the
    characters of a string, the keys of a dict; anything else is not
    iterable. *)
Definition iterate (v : json) : result (list json) :=
  match v with
  | JList l => Return l
  | JStr s => Return (chars s)
  | JDict d => Return (map (fun kv => JStr (fst kv)) d)
  | _ => Raise (mkExn TypeError
                  ("'" ++ type_name v ++ "' object is not iterable"))
  end.

(** The strings of a sequence handed to [join]; the first item that is
    not a [str] raises. *)
Fixpoint join_items (idx : Z) (items : list json) : result (list string) :=
  match items with
  | [] => Return []
  | JStr s :: rest =>
      match join_items (idx + 1) rest with
      | Return ss => Return (s :: ss)
      | Raise e => Raise e
      end
  | v :: _ =>
      Raise (mkExn TypeError
               ("sequence item " ++ str_of_int idx ++
                ": expected str instance, " ++ type_name v ++ " found"))
  end.

(** [sep.join(v)]. *)
Definition str_join (sep : string) (v : json) : result string :=
  match iterate v with
  | Raise _ => Raise (mkExn TypeError "can only join an iterable")
  | Return items =>
      match join_items 0 items with
      | Return ss => Return (String.concat sep ss)
      | Raise e => Raise e
      end
  end.

(** [s.rstrip('/')]: every trailing slash goes. *)
Fixpoint rstrip_slash (s : string) : string :=
  match s with
  | EmptyString => EmptyString
  | String c rest =>
      match rstrip_slash rest with
      | EmptyString =>
          if Ascii.eqb c "/"%char then EmptyString else String c EmptyString
      | kept => String c kept
      end
  end.

(* ===================================================================== *)
(** ** The result record (validate.py, lines 7-20) *)
(* ===================================================================== *)

(** [resource_type] holds whatever the payload's [resourceType] field
    held, and [operation_outcome] the decoded response body; [JNull] is the
    [None] default of both. [timestamp] is [None] only between [__init__]
    and [__post_init__]. *)
Record ValidationResult : Type := mkValidationResult {
  is_valid : bool;
  errors : list string;
  warnings : list string;
  information : list string;
  resource_type : json;
  timestamp : option string;
  operation_outcome : json
}.

(** The decorator is a bare [@dataclass]: [frozen] keeps its default. *)
Definition frozen : bool := false.

(** An assignment [obj.field = value] to one of the declared fields. *)
Inductive assignment : Type :=
| Set_is_valid (v : bool)
| Set_errors (v : list string)
| Set_warnings (v : list string)
| Set_information (v : list string)
| Set_resource_type (v : json)
| Set_timestamp (v : option string)
| Set_operation_outcome (v : json).

Definition assign (r : ValidationResult) (a : assignment) : ValidationResult :=
  match a with
  | Set_is_valid v =>
      mkValidationResult v (errors r) (warnings r) (information r)
        (resource_type r) (timestamp r) (operation_outcome r)
  | Set_errors v =>
      mkValidationResult (is_valid r) v (warnings r) (information r)
        (resource_type r) (timestamp r) (operation_outcome r)
  | Set_warnings v =>
      mkValidationResult (is_valid r) (errors r) v (information r)
        (resource_type r) (timestamp r) (operation_outcome r)
  | Set_information v =>
      mkValidationResult (is_valid r) (errors r) (warnings r) v
        (resource_type r) (timestamp r) (operation_outcome r)
  | Set_resource_type v =>
      mkValidationResult (is_valid r) (errors r) (warnings r) (information r)
        v (timestamp r) (operation_outcome r)
  | Set_timestamp v =>
      mkValidationResult (is_valid r) (errors r) (warnings r) (information r)
        (resource_type r) v (operation_outcome r)
  | Set_operation_outcome v =>
      mkValidationResult (is_valid r) (errors r) (warnings r) (information r)
        (resource_type r) (timestamp r) v
  end.

(** The [__setattr__] a dataclass gets: a frozen one refuses every
    assignment, a plain one performs it. *)
Definition setattr (r : ValidationResult) (a : assignment)
  : result ValidationResult :=
  if frozen
  then Raise (mkExn FrozenInstanceError "cannot assign to field")
  else Return (assign r a).

(** The instance's attributes, as [__init__] stores them. *)
Definition instance_dict (r : ValidationResult) : dict :=
  [ ("is_valid", JBool (is_valid r));
    ("errors", JList (map JStr (errors r)));
    ("warnings", JList (map JStr (warnings r)));
    ("information", JList (map JStr (information r)));
    ("resource_type", resource_type r);
    ("timestamp", match timestamp r with Some t => JStr t | None => JNull end);
    ("operation_outcome", operation_outcome r) ].

(** The methods the class body and the decorator put in the class. *)
Definition class_methods : list string :=
  [ "__init__"; "__post_init__"; "__repr__"; "__eq__" ].

Inductive attribute : Type :=
| Data (v : json)
| BoundMethod (name : string).

(** [obj.name]: the instance's attributes first, then the class. An
    instance holds the declared fields and nothing else, and the attributes
    every object inherits from [object] are left out. *)
Definition getattr (r : ValidationResult) (name : string) : result attribute :=
  if dict_contains (instance_dict r) name
  then Return (Data (dict_get (instance_dict r) name JNull))
  else if existsb (String.eqb name) class_methods
  then Return (BoundMethod name)
  else Raise (mkExn AttributeError
                ("'ValidationResult' object has no attribute '" ++ name ++ "'")).

(** environment.py, lines 9-10. *)
Definition valid (validation_result : ValidationResult) : result attribute :=
  getattr validation_result "valid".

(* ===================================================================== *)
(** ** The HTTP library's interface *)
(* ===================================================================== *)

(** The arguments of [requests.post]. *)
Record request : Type := mkRequest {
  req_url : string;
  req_json : json;
  req_headers : list (string * string);
  req_params : list (string * string);
  req_timeout : Z
}.

(** What the code reads of a response: the status, the raw text, and what
    the [json()] method does when called. *)
Record response : Type := mkResponse {
  status_code : Z;
  text : string;
  json_method : result json
}.

(** The calls made to the HTTP library. *)
Inductive event : Type :=
| Posted (req : request)
| Decoded (resp : response).

(* ===================================================================== *)
(** ** Control flow inside [validate_fhir_resource] *)
(* ===================================================================== *)

(** The locals of [validate_fhir_resource] that are assigned inside the
    [try] and read after it, and the log of the calls made so far. *)
Record state : Type := mkState {
  st_errors : list string;
  st_warnings : list string;
  st_information : list string;
  st_detected_resource_type : json;
  st_operation_outcome : json;
  st_calls : list event
}.

(** How a block of statements ends: it falls through, it raises, or it
    executes [return]. *)
Inductive flow (A : Type) : Type :=
| Next (a : A)
| Throw (e : exn)
| Exit (r : ValidationResult).
Arguments Next {A} a.
Arguments Throw {A} e.
Arguments Exit {A} r.

Definition M (A : Type) : Type := state -> flow A * state.

Definition ret {A} (a : A) : M A := fun s => (Next a, s).

Definition bind {A B} (c : M A) (k : A -> M B) : M B :=
  fun s =>
    match c s with
    | (Next a, s') => k a s'
    | (Throw e, s') => (Throw e, s')
    | (Exit r, s') => (Exit r, s')
    end.

Definition throw {A} (e : exn) : M A := fun s => (Throw e, s).

Definition exit {A} (r : ValidationResult) : M A := fun s => (Exit r, s).

Definition lift {A} (r : result A) : M A :=
  match r with
  | Return a => ret a
  | Raise e => throw e
  end.

Definition get : M state := fun s => (Next s, s).

Definition modify (f : state -> state) : M unit := fun s => (Next tt, f s).

Declare Scope flow_scope.
Delimit Scope flow_scope with flow.
Notation "x <- c ;; k" := (bind c (fun x => k))
  (at level 61, c at next level, right associativity) : flow_scope.
Notation "c ;; k" := (bind c (fun _ => k))
  (at level 61, right associativity) : flow_scope.

(** The first [except] clause whose class the exception is an instance
    of, in the order the clauses are written. *)
Fixpoint find_handler {A} (e : exn) (clauses : list (exn_class * (exn -> M A)))
  : option (exn -> M A) :=
  match clauses with
  | [] => None
  | (c, h) :: rest => if isinstance e c then Some h else find_handler e rest
  end.

(** [try: body except C1 as e: h1 ... except Cn as e: hn]. An exception
    no clause matches goes on, and so does a [return] in the body. *)
Definition try_except {A} (body : M A) (clauses : list (exn_class * (exn -> M A)))
  : M A :=
  fun s =>
    match body s with
    | (Throw e, s') =>
        match find_handler e clauses with
        | Some h => h e s'
        | None => (Throw e, s')
        end
    | other => other
    end.

(** [errors.append(msg)]. *)
Definition append_error (msg : string) : M unit :=
  modify (fun s =>
    mkState (st_errors s ++ [msg]) (st_warnings s) (st_information s)
      (st_detected_resource_type s) (st_operation_outcome s) (st_calls s)).

(** [errors.extend(es); warnings.extend(ws); information.extend(is)]. *)
Definition extend_buckets (es ws infos : list string) : M unit :=
  modify (fun s =>
    mkState (st_errors s ++ es) (st_warnings s ++ ws) (st_information s ++ infos)
      (st_detected_resource_type s) (st_operation_outcome s) (st_calls s)).

Definition set_detected_resource_type (v : json) : M unit :=
  modify (fun s =>
    mkState (st_errors s) (st_warnings s) (st_information s)
      v (st_operation_outcome s) (st_calls s)).

Definition set_operation_outcome (v : json) : M unit :=
  modify (fun s =>
    mkState (st_errors s) (st_warnings s) (st_information s)
      (st_detected_resource_type s) v (st_calls s)).

Definition log (ev : event) : M unit :=
  modify (fun s =>
    mkState (st_errors s) (st_warnings s) (st_information s)
      (st_detected_resource_type s) (st_operation_outcome s)
      (st_calls s ++ [ev])).

(* ===================================================================== *)
(** ** A small world for the examples *)
(* ===================================================================== *)

Module Demo.

(** A decoder that knows a few texts and rejects every other one the way
    [json.loads] rejects text that is not JSON. *)
Definition json_loads (s : string) : result json :=
  if String.eqb s "{}" then Return (JDict [])
  else if String.eqb s "[]" then Return (JList [])
  else if String.eqb s "null" then Return JNull
  else Raise (mkExn JSONDecodeError
                "Expecting value: line 1 column 1 (char 0)").

Definition py_repr (v : json) : string :=
  match v with
  | JNull => "None"
  | JBool true => "True"
  | JBool false => "False"
  | JInt n => str_of_int n
  | JStr s => s
  | JFloat _ => "<float>"
  | JList _ => "<list>"
  | JDict _ => "<dict>"
  end.

Definition now : string := "2024-05-01T12:00:00.000000".

Definition patient : json :=
  JDict [("resourceType", JStr "Patient"); ("id", JStr "p1")].

Definition base_url : string := "https://example.org/fhir".

Definition profile : string := "http://example.org/StructureDefinition/p1".

(** A server that answers every request with the same response, and a
    network on which every request fails the same way. *)
Definition answering (resp : response) : request -> result response :=
  fun _ => Return resp.

Definition failing (e : exn) : request -> result response :=
  fun _ => Raise e.

Definition outcome_empty : json :=
  JDict [("resourceType", JStr "OperationOutcome"); ("issue", JList [])].

Definition issue_warning : json :=
  JDict [("severity", JStr "warning");
         ("diagnostics", JStr "Missing optional field")].

Definition issue_error : json :=
  JDict [("severity", JStr "error"); ("code", JStr "required");
         ("details", JDict [("text", JStr "Patient.name is required")]);
         ("location", JList [JStr "Patient.name"; JStr "line 3"])].

Definition issue_hint : json :=
  JDict [("severity", JStr "hint"); ("diagnostics", JStr "Consider a narrative")].

Definition issue_info : json :=
  JDict [("severity", JStr "information"); ("code", JStr "informational")].

Definition outcome_mixed : json :=
  JDict [("resourceType", JStr "OperationOutcome");
         ("issue", JList [issue_warning; issue_error; issue_hint; issue_info])].

Definition response_ok : response :=
  mkResponse 200 "(outcome document)" (Return outcome_empty).

Definition response_not_found : response :=
  mkResponse 404 "{}" (Return outcome_empty).

(** What the call returns for [patient] when the server answers
    [response_ok]. *)
Definition returned : ValidationResult :=
  mkValidationResult true [] [] ["Validation completed successfully"]
    (JStr "Patient") (Some now) outcome_empty.

Definition read_timeout : exn :=
  mkExn ReadTimeout "HTTPSConnectionPool(host='example.org', port=443): Read timed out.".

Definition response_mixed : response :=
  mkResponse 422 "(outcome document)" (Return outcome_mixed).

Definition not_json : exn :=
  mkExn RequestsJSONDecodeError "Expecting value: line 1 column 1 (char 0)".

Definition response_html : response :=
  mkResponse 200 "<html>Bad gateway</html>" (Raise not_json).

Definition response_bad_request_html : response :=
  mkResponse 400 "<html>Bad request</html>" (Raise not_json).

Definition response_server_error : response :=
  mkResponse 500 "Internal Server Error" (Return outcome_empty).

Definition bundle : json :=
  JDict [("resourceType", JStr "Bundle"); ("type", JStr "searchset")].

Definition response_bundle : response :=
  mkResponse 200 "(bundle)" (Return bundle).

(** An outcome whose second issue gives a number where the locations
    should be. *)
Definition issue_bad_location : dict :=
  [("severity", JStr "error"); ("location", JInt 5)].

Definition outcome_bad_location : json :=
  JDict [("resourceType", JStr "OperationOutcome");
         ("issue", JList [issue_warning; JDict issue_bad_location])].

Definition response_bad_location : response :=
  mkResponse 200 "(outcome document)" (Return outcome_bad_location).

Definition issue_bad_diagnostics : dict :=
  [("severity", JStr "warning"); ("diagnostics", JInt 7)].

Definition outcome_bad_diagnostics : dict :=
  [("resourceType", JStr "OperationOutcome");
   ("issue", JList [issue_error; JDict issue_bad_diagnostics])].

Definition issue_no_severity : dict :=
  [("diagnostics", JStr "Unknown element 'foo'")].

Definition outcome_no_severity : json :=
  JDict [("resourceType", JStr "OperationOutcome");
         ("issue", JList [issue_info; JDict issue_no_severity])].

Definition outcome_hints : json :=
  JDict [("resourceType", JStr "OperationOutcome");
         ("issue", JList [issue_hint; JStr "not an issue"])].

Definition issue_bare : dict :=
  [("severity", JStr "error"); ("code", JStr "invalid")].

Definition unserialisable : exn :=
  mkExn TypeError "Object of type set is not JSON serializable".

Definition broken_decoder : exn :=
  mkExn ValueError "Expecting value".

Definition response_broken_decoder : response :=
  mkResponse 200 "<html>" (Raise broken_decoder).

End Demo.

(* ===================================================================== *)
(** ** The program *)
(* ===================================================================== *)

Section Pipeline.

(** What the program takes from its libraries and from the clock. *)

(** [json.loads]. *)
Variable json_loads : string -> result json.
(** [requests.post]. *)
Variable requests_post : request -> result response.
(** [str(v)] for a value that is not a string, as an f-string renders it. *)
Variable py_repr : json -> string.
(** [datetime.utcnow().isoformat()] at the time the result is built. *)
Variable utcnow_isoformat : string.

Definition py_str (v : json) : string :=
  match v with
  | JStr s => s
  | _ => py_repr v
  end.

(** *** ValidationResult construction (validate.py, lines 18-20) *)

Definition __post_init__ (self : ValidationResult) : result ValidationResult :=
  match timestamp self with
  | None => setattr self (Set_timestamp (Some utcnow_isoformat))
  | Some _ => Return self
  end.

(** [ValidationResult(is_valid=..., ...)]: the generated [__init__]
    stores the arguments and calls [__post_init__]. *)
Definition new_ValidationResult (is_valid : bool)
    (errors warnings information : list string)
    (resource_type : json) (timestamp : option string)
    (operation_outcome : json) : result ValidationResult :=
  __post_init__
    (mkValidationResult is_valid errors warnings information
       resource_type timestamp operation_outcome).

(** *** _parse_operation_outcome (validate.py, lines 160-227) *)

(** The four locals of the parser. *)
Record buckets : Type := mkBuckets {
  b_is_valid : bool;
  b_errors : list string;
  b_warnings : list string;
  b_information : list string
}.

(** Lines 189-212: the message of one issue. [message_parts] is a Python
    list, so it can hold a value that is not a string until [join] meets
    it. *)
Definition issue_message (issue : dict) : result string :=
  let code := dict_get issue "code" (JStr "unknown") in
  let details := dict_get issue "details" (JDict []) in
  let diagnostics := dict_get issue "diagnostics" (JStr "") in
  let location := dict_get issue "location" (JList []) in
  let message_parts : list json := [] in
  let message_parts :=
    match details with
    | JDict d =>
        if truthy details then
          let detail_text := dict_get d "text" (JStr "") in
          if truthy detail_text
          then (message_parts ++ [detail_text])%list
          else message_parts
        else message_parts
    | _ => message_parts
    end in
  let message_parts :=
    if truthy diagnostics
    then (message_parts ++ [diagnostics])%list
    else message_parts in
  (let? message_parts :=
     if truthy location then
       (let? location_str := str_join ", " location in
        Return (message_parts ++ [JStr ("Location: " ++ location_str)])%list)
     else Return message_parts in
   let message_parts :=
     if negb (truthy (JList message_parts))
     then (message_parts ++ [JStr ("Validation issue (" ++ py_str code ++ ")")])%list
     else message_parts in
   str_join " - " (JList message_parts))%result.

(** Lines 185-221: the body of the loop, for one item of the issue list. *)
Definition parse_issue (acc : buckets) (issue : json) : result buckets :=
  match issue with
  | JDict d =>
      let severity := dict_get d "severity" (JStr "error") in
      (let? message := issue_message d in
       if eq_str severity "fatal" || eq_str severity "error" then
         Return (mkBuckets false (b_errors acc ++ ["Error: " ++ message])
                   (b_warnings acc) (b_information acc))
       else if eq_str severity "warning" then
         Return (mkBuckets (b_is_valid acc) (b_errors acc)
                   (b_warnings acc ++ ["Warning: " ++ message])
                   (b_information acc))
       else if eq_str severity "information" then
         Return (mkBuckets (b_is_valid acc) (b_errors acc) (b_warnings acc)
                   (b_information acc ++ ["Info: " ++ message]))
       else Return acc)%result
  | _ => Return acc
  end.

(** Line 184: the loop. *)
Fixpoint parse_issues (acc : buckets) (issues : list json) : result buckets :=
  match issues with
  | [] => Return acc
  | issue :: rest =>
      match parse_issue acc issue with
      | Return acc' => parse_issues acc' rest
      | Raise e => Raise e
      end
  end.

Definition _parse_operation_outcome (operation_outcome : json)
  : result (bool * list string * list string * list string) :=
  match operation_outcome with
  | JDict d =>
      if negb (eq_str (dict_get d "resourceType" JNull) "OperationOutcome")
      then Return (false,
                   ["Expected OperationOutcome resource from validation endpoint"],
                   [], [])
      else
        let issues := dict_get d "issue" (JList []) in
        (let? items := iterate issues in
         let? acc := parse_issues (mkBuckets true [] [] []) items in
         let information :=
           if negb (truthy issues)
              && eq_str (dict_get d "resourceType" JNull) "OperationOutcome"
           then (b_information acc ++ ["Validation completed successfully"])%list
           else b_information acc in
         Return (b_is_valid acc, b_errors acc, b_warnings acc, information))%result
  | _ => Return (false, ["Invalid OperationOutcome format"], [], [])
  end.

(** *** validate_fhir_resource (validate.py, lines 22-158) *)

(** An [Optional[str]] argument as the Python value it is. *)
Definition of_optional (o : option string) : json :=
  match o with
  | Some s => JStr s
  | None => JNull
  end.

Definition default_timeout : Z := 30.

(** Lines 68-76. *)
Definition validation_url (fhir_server_url : string)
    (resource_type : option string) (detected_resource_type : json) : string :=
  let fhir_base_url := rstrip_slash fhir_server_url in
  if truthy (of_optional resource_type) then
    fhir_base_url ++ "/" ++ py_str (of_optional resource_type) ++ "/$validate"
  else if truthy detected_resource_type then
    fhir_base_url ++ "/" ++ py_str detected_resource_type ++ "/$validate"
  else
    fhir_base_url ++ "/$validate".

(** Lines 79-82. *)
Definition headers : list (string * string) :=
  [ ("Content-Type", "application/fhir+json");
    ("Accept", "application/fhir+json") ].

(** Lines 85-87. *)
Definition params (profile_url : option string) : list (string * string) :=
  if truthy (of_optional profile_url)
  then [("profile", py_str (of_optional profile_url))]
  else [].

(** Lines 50-61: the payload as a structure. A string that does not
    parse ends the call with a result of its own. *)
Definition load_resource (resource_json : json) : M json :=
  match resource_json with
  | JStr s =>
      try_except (lift (json_loads s))
        [ (JSONDecodeError, fun e =>
             (r <- lift (new_ValidationResult false
                           ["Invalid JSON format: " ++ exn_str e] [] []
                           JNull None JNull) ;;
              exit r)%flow) ]
  | _ => ret resource_json
  end.

(** Lines 64-65. *)
Definition detect_resource_type (resource_dict : json) : M unit :=
  match resource_dict with
  | JDict d =>
      if dict_contains d "resourceType"
      then set_detected_resource_type (dict_get d "resourceType" JNull)
      else ret tt
  | _ => ret tt
  end.

(** Lines 90-96. *)
Definition post (req : request) : M response :=
  (log (Posted req) ;; lift (requests_post req))%flow.

(** Lines 102-106, and the same statements at 114-118 and 128-132. *)
Definition parse_body (resp : response) : M unit :=
  (log (Decoded resp) ;;
   outcome <- lift (json_method resp) ;;
   set_operation_outcome outcome ;;
   parsed <- lift (_parse_operation_outcome outcome) ;;
   let '(_, parsed_errors, parsed_warnings, parsed_info) := parsed in
   extend_buckets parsed_errors parsed_warnings parsed_info)%flow.

(** Lines 99-137. *)
Definition handle_response (resp : response) : M unit :=
  if status_code resp =? 200 then
    try_except (parse_body resp)
      [ (JSONDecodeError, fun _ =>
           append_error "Server returned invalid JSON response") ]
  else if status_code resp =? 400 then
    try_except (parse_body resp)
      [ (JSONDecodeError, fun _ =>
           append_error ("Validation failed with status "
                         ++ str_of_int (status_code resp) ++ ": " ++ text resp)) ]
  else if status_code resp =? 404 then
    append_error
      "FHIR server validation endpoint not found - check server URL and resource type"
  else if status_code resp =? 422 then
    try_except (parse_body resp)
      [ (JSONDecodeError, fun _ =>
           append_error ("Validation failed with status "
                         ++ str_of_int (status_code resp) ++ ": " ++ text resp)) ]
  else
    append_error ("FHIR server returned status "
                  ++ str_of_int (status_code resp) ++ ": " ++ text resp).

(** Lines 49-137: the body of the outer [try]. *)
Definition try_body (resource_json : json) (fhir_server_url : string)
    (resource_type profile_url : option string) (timeout : Z) : M unit :=
  (resource_dict <- load_resource resource_json ;;
   detect_resource_type resource_dict ;;
   s <- get ;;
   resp <- post (mkRequest
                   (validation_url fhir_server_url resource_type
                      (st_detected_resource_type s))
                   resource_dict headers (params profile_url) timeout) ;;
   handle_response resp)%flow.

(** Lines 139-149: the [except] clauses of the outer [try], in order. *)
Definition handlers (timeout : Z) : list (exn_class * (exn -> M unit)) :=
  [ (Timeout, fun _ =>
       append_error ("Request to FHIR server timed out after "
                     ++ str_of_int timeout ++ " seconds"));
    (ConnectionError, fun _ =>
       append_error
         "Could not connect to FHIR server - check URL and network connectivity");
    (RequestException, fun e =>
       append_error ("Request to FHIR server failed: " ++ exn_str e));
    (PyException, fun e =>
       append_error ("Unexpected error during validation: " ++ exn_str e)) ].

(** The whole function, run against the log of the calls made before it.
    It ends with a result or with the exception that escaped it. *)
Definition validate_fhir_resource (resource_json : json)
    (fhir_server_url : string) (resource_type profile_url : option string)
    (timeout : Z) (calls : list event)
  : result ValidationResult * list event :=
  let s0 := mkState [] [] [] JNull JNull calls in
  match try_except
          (try_body resource_json fhir_server_url resource_type profile_url
             timeout)
          (handlers timeout) s0 with
  | (Exit r, s) => (Return r, st_calls s)
  | (Throw e, s) => (Raise e, st_calls s)
  | (Next _, s) =>
      (new_ValidationResult (Nat.eqb (length (st_errors s)) 0)
         (st_errors s) (st_warnings s) (st_information s)
         (st_detected_resource_type s) None (st_operation_outcome s),
       st_calls s)
  end.

(** *** The pure content of the first statements

    What lines 50-76 compute when nothing raises, for stating what is sent. *)

(** The structure the payload stands for, when there is one. *)
Definition parsed_payload (resource_json : json) : option json :=
  match resource_json with
  | JStr s =>
      match json_loads s with
      | Return d => Some d
      | Raise _ => None
      end
  | _ => Some resource_json
  end.

(** The value line 65 leaves in [detected_resource_type]. *)
Definition detected_type (resource_dict : json) : json :=
  match resource_dict with
  | JDict d =>
      if dict_contains d "resourceType"
      then dict_get d "resourceType" JNull
      else JNull
  | _ => JNull
  end.

(** The arguments line 90 hands to [requests.post]. *)
Definition request_for (resource_dict : json) (fhir_server_url : string)
    (resource_type profile_url : option string) (timeout : Z) : request :=
  mkRequest
    (validation_url fhir_server_url resource_type (detected_type resource_dict))
    resource_dict headers (params profile_url) timeout.

(** *** Outcome documents *)

(** The items of the issue list of a document, as line 182 reads it. *)
Definition issue_list (doc : json) : list json :=
  match doc with
  | JDict d =>
      match dict_get d "issue" (JList []) with
      | JList l => l
      | _ => []
      end
  | _ => []
  end.

(** An issue whose fields have the types FHIR gives them, as far as the
    parser reads them: [details.text] and [diagnostics] are strings,
    [location] is a list of strings. [severity] and [code] are free, and an
    entry that is not an object is accepted (the parser skips it). *)
Definition well_typed_issue (issue : json) : bool :=
  match issue with
  | JDict d =>
      match dict_get d "details" (JDict []) with
      | JDict t => isinstance_str (dict_get t "text" (JStr ""))
      | _ => true
      end
      && isinstance_str (dict_get d "diagnostics" (JStr ""))
      && match dict_get d "location" (JList []) with
         | JList l => forallb isinstance_str l
         | _ => false
         end
  | _ => true
  end.

(** A well-formed outcome document: an object declared as an
    [OperationOutcome] whose [issue], when present, is a list of well-typed
    issues. *)
Definition well_formed_outcome (doc : json) : bool :=
  match doc with
  | JDict d =>
      eq_str (dict_get d "resourceType" JNull) "OperationOutcome"
      && match dict_get d "issue" (JList []) with
         | JList l => forallb well_typed_issue l
         | _ => false
         end
  | _ => false
  end.

(** The severity line 188 reads, and the message lines 189-212 build. *)
Definition severity_of (issue : json) : json :=
  match issue with
  | JDict d => dict_get d "severity" (JStr "error")
  | _ => JNull
  end.

Definition message_of (issue : json) : string :=
  match issue with
  | JDict d =>
      match issue_message d with
      | Return m => m
      | Raise _ => ""
      end
  | _ => ""
  end.

(** The bucketing rule in the specification's words: [fatal] and [error]
    go to the errors, [warning] to the warnings, [information] to the
    information, and any other severity goes nowhere. *)
Inductive bucket : Type := Errors | Warnings | Information.

Definition spec_bucket (severity : json) : option bucket :=
  if eq_str severity "fatal" then Some Errors
  else if eq_str severity "error" then Some Errors
  else if eq_str severity "warning" then Some Warnings
  else if eq_str severity "information" then Some Information
  else None.

Definition bucket_eqb (a b : bucket) : bool :=
  match a, b with
  | Errors, Errors | Warnings, Warnings | Information, Information => true
  | _, _ => false
  end.

Definition in_bucket (b : bucket) (issue : json) : bool :=
  match issue with
  | JDict _ =>
      match spec_bucket (severity_of issue) with
      | Some b' => bucket_eqb b b'
      | None => false
      end
  | _ => false
  end.

Definition bucket_prefix (b : bucket) : string :=
  match b with
  | Errors => "Error: "
  | Warnings => "Warning: "
  | Information => "Info: "
  end.

(** The messages of the issues of one bucket, in the order of the list. *)
Definition spec_contents (b : bucket) (issues : list json) : list string :=
  map (fun issue => bucket_prefix b ++ message_of issue)
      (filter (in_bucket b) issues).

(** *** Vocabulary for the properties of the pipeline *)

(** A block that never executes [return]. *)
Definition never_exits {A} (c : M A) : Prop :=
  forall s r s', c s <> (Exit r, s').

(** The locals at the start of the call: lines 42-46. *)
Definition initial_state (calls : list event) : state :=
  mkState [] [] [] JNull JNull calls.

(** The result line 54 builds when the payload does not parse. *)
Definition parse_failure_result (e : exn) : ValidationResult :=
  mkValidationResult false ["Invalid JSON format: " ++ exn_str e] [] []
    JNull (Some utcnow_isoformat) JNull.

(** The result line 151 builds from the locals. *)
Definition final_result (s : state) : ValidationResult :=
  mkValidationResult (Nat.eqb (length (st_errors s)) 0)
    (st_errors s) (st_warnings s) (st_information s)
    (st_detected_resource_type s) (Some utcnow_isoformat)
    (st_operation_outcome s).

(** A block that only adds to the log of calls. *)
Definition extends_log {A} (c : M A) : Prop :=
  forall s f s', c s = (f, s') ->
  exists rest, st_calls s' = (st_calls s ++ rest)%list.

(** Whether a string ends with a slash, and a run of [n] slashes, for
    stating what [rstrip('/')] does. *)
Fixpoint ends_with_slash (s : string) : bool :=
  match s with
  | EmptyString => false
  | String c EmptyString => Ascii.eqb c "/"%char
  | String _ rest => ends_with_slash rest
  end.

Fixpoint slashes (n : nat) : string :=
  match n with
  | O => EmptyString
  | S k => String "/"%char (slashes k)
  end.

(** *** Vocabulary for the properties of the status branches *)

(** The statuses whose body is decoded: lines 99, 111 and 125. *)
Definition decodes_body (status : Z) : bool :=
  (status =? 200) || (status =? 400) || (status =? 422).

(** The message of the inner [except] clause of a status whose body is
    decoded: line 109 for 200, lines 120 and 134 for 400 and 422. *)
Definition undecodable_message (resp : response) : string :=
  if status_code resp =? 200
  then "Server returned invalid JSON response"
  else "Validation failed with status "
       ++ str_of_int (status_code resp) ++ ": " ++ text resp.

(** The locals and the log once the request has been posted. *)
Definition posted_state (resource_dict : json) (fhir_server_url : string)
    (resource_type profile_url : option string) (timeout : Z)
    (calls : list event) : state :=
  mkState [] [] [] (detected_type resource_dict) JNull
    (calls ++ [Posted (request_for resource_dict fhir_server_url
                         resource_type profile_url timeout)]).

Definition is_nil {A} (l : list A) : bool :=
  match l with
  | [] => true
  | _ => false
  end.

(** *** Vocabulary for the properties of the messages *)

(** An issue written out from typed parts, every field present. *)
Definition typed_issue (severity code : json) (detail_text diagnostics : string)
    (locations : list string) : dict :=
  [ ("severity", severity);
    ("code", code);
    ("details", JDict [("text", JStr detail_text)]);
    ("diagnostics", JStr diagnostics);
    ("location", JList (map JStr locations)) ].

(** The part a text contributes to a message: nothing when it is empty. *)
Definition text_part (s : string) : list string :=
  if String.eqb s "" then [] else [s].

Definition location_part (locations : list string) : list string :=
  match locations with
  | [] => []
  | _ => ["Location: " ++ String.concat ", " locations]
  end.

(** Whether a value is a truthy object that is not a string: what
    [' - '.join] refuses when it stands for the diagnostics. *)
Definition truthy_non_string (v : json) : bool :=
  truthy v && negb (isinstance_str v).

(** An issue that goes to one of the three buckets. *)
Definition has_known_severity (issue : json) : bool :=
  in_bucket Errors issue || in_bucket Warnings issue
  || in_bucket Information issue.

(* ===================================================================== *)
(** ** Properties of the outcome parser *)
(* ===================================================================== *)

Lemma dict_get_absent (d : dict) (key : string) (default : json) :
  dict_contains d key = false -> dict_get d key default = default.
Proof.
  induction d as [|[k v] rest IH]; simpl; [reflexivity|].
  destruct (String.eqb k key); simpl; [discriminate | exact IH].
Qed.

Lemma join_items_strings (l : list json) :
  forallb isinstance_str l = true ->
  forall idx, exists ss, join_items idx l = Return ss.
Proof.
  induction l as [|v rest IH]; simpl; intros Hall idx.
  - exists []. reflexivity.
  - apply andb_true_iff in Hall. destruct Hall as [Hv Hrest].
    destruct v; try discriminate Hv.
    destruct (IH Hrest (idx + 1)) as [ss Hss]. rewrite Hss.
    eexists. reflexivity.
Qed.

Lemma str_join_strings (sep : string) (l : list json) :
  forallb isinstance_str l = true ->
  exists joined, str_join sep (JList l) = Return joined.
Proof.
  intros Hall. unfold str_join. simpl.
  destruct (join_items_strings l Hall 0) as [ss Hss]. rewrite Hss.
  eexists. reflexivity.
Qed.

(** Building the message of a well-typed issue does not raise. *)
Lemma issue_message_total (d : dict) :
  well_typed_issue (JDict d) = true ->
  exists message, issue_message d = Return message.
Proof.
  unfold well_typed_issue, issue_message. intros H.
  apply andb_true_iff in H. destruct H as [H Hloc].
  apply andb_true_iff in H. destruct H as [Hdet Hdiag].
  destruct (dict_get d "location" (JList [])) as [| | | | |loc|];
    try discriminate Hloc.
  destruct (dict_get d "diagnostics" (JStr "")) as [| | | |diag| |];
    try discriminate Hdiag.
  set (parts :=
         match dict_get d "details" (JDict []) with
         | JDict t =>
             if truthy (dict_get d "details" (JDict [])) then
               if truthy (dict_get t "text" (JStr ""))
               then ([] ++ [dict_get t "text" (JStr "")])%list
               else []
             else []
         | _ => []
         end).
  assert (Hparts : forallb isinstance_str parts = true).
  { subst parts.
    destruct (dict_get d "details" (JDict [])) as [| | | | | |t]; try reflexivity.
    destruct (truthy (JDict t)); [|reflexivity].
    destruct (truthy (dict_get t "text" (JStr ""))); [|reflexivity].
    simpl. rewrite Hdet. reflexivity. }
  clearbody parts.
  set (parts' := if truthy (JStr diag) then (parts ++ [JStr diag])%list else parts).
  assert (Hparts' : forallb isinstance_str parts' = true).
  { subst parts'. destruct (truthy (JStr diag)); [|exact Hparts].
    rewrite forallb_app, Hparts. reflexivity. }
  clearbody parts'. clear parts Hparts.
  destruct (truthy (JList loc)).
  - destruct (str_join_strings ", " loc Hloc) as [joined Hjoined].
    rewrite Hjoined. cbn [rbind].
    match goal with
    | |- context [str_join " - " (JList ?l)] =>
        apply (str_join_strings " - " l)
    end.
    destruct (negb _);
      repeat rewrite forallb_app; rewrite Hparts'; reflexivity.
  - cbn [rbind].
    match goal with
    | |- context [str_join " - " (JList ?l)] =>
        apply (str_join_strings " - " l)
    end.
    destruct (negb _);
      repeat rewrite forallb_app; rewrite Hparts'; reflexivity.
Qed.

Lemma message_of_issue (d : dict) (message : string) :
  issue_message d = Return message -> message_of (JDict d) = message.
Proof. intros H. unfold message_of. rewrite H. reflexivity. Qed.

(** The loop over a list of well-typed issues returns, and each bucket has
    grown by the messages the specification's rule assigns to it. *)
Lemma parse_issues_buckets (issues : list json) :
  forallb well_typed_issue issues = true ->
  forall acc,
    parse_issues acc issues =
    Return (mkBuckets
              (b_is_valid acc && negb (existsb (in_bucket Errors) issues))
              (b_errors acc ++ spec_contents Errors issues)
              (b_warnings acc ++ spec_contents Warnings issues)
              (b_information acc ++ spec_contents Information issues)).
Proof.
  induction issues as [|issue rest IH]; intros Hall acc.
  - simpl. unfold spec_contents. simpl.
    rewrite andb_true_r, !app_nil_r. destruct acc; reflexivity.
  - simpl in Hall. apply andb_true_iff in Hall. destruct Hall as [Hissue Hrest].
    cbn [parse_issues].
    destruct issue as [| | | | | |d];
      try (cbn [parse_issue]; rewrite (IH Hrest acc); reflexivity).
    destruct (issue_message_total d Hissue) as [message Hmessage].
    unfold parse_issue. rewrite Hmessage. cbn [rbind].
    unfold spec_contents. cbn [filter existsb in_bucket severity_of].
    unfold spec_bucket.
    rewrite (message_of_issue d Hmessage) || idtac.
    destruct (eq_str (dict_get d "severity" (JStr "error")) "fatal");
      [| destruct (eq_str (dict_get d "severity" (JStr "error")) "error");
         [| destruct (eq_str (dict_get d "severity" (JStr "error")) "warning");
            [| destruct (eq_str (dict_get d "severity" (JStr "error"))
                           "information")]]];
      cbn [orb bucket_eqb negb andb map bucket_prefix];
      rewrite (IH Hrest); cbn [b_is_valid b_errors b_warnings b_information];
      unfold spec_contents;
      rewrite ?(message_of_issue d Hmessage), <- ?app_assoc, ?andb_false_r;
      reflexivity.
Qed.

(** C7. An outcome document declared as an [OperationOutcome] whose issue
    list is empty or absent parses to a valid result: no errors, no
    warnings, and the single information message
    "Validation completed successfully". *)
Theorem empty_issue_list_is_success (d : dict) :
  eq_str (dict_get d "resourceType" JNull) "OperationOutcome" = true ->
  dict_contains d "issue" = false \/ dict_get d "issue" (JList []) = JList [] ->
  _parse_operation_outcome (JDict d) =
  Return (true, [], [], ["Validation completed successfully"]).
Proof.
  intros Htype Hissue.
  assert (Hempty : dict_get d "issue" (JList []) = JList []).
  { destruct Hissue as [Habsent | Hnil];
      [apply dict_get_absent; exact Habsent | exact Hnil]. }
  unfold _parse_operation_outcome. rewrite Htype, Hempty. reflexivity.
Qed.

(** C6. In a well-formed outcome document the issues are bucketed by
    severity: the parser returns, its errors are the messages of the issues
    of severity [fatal] or [error], its warnings those of severity
    [warning], its information those of severity [information], each in
    document order, and an issue of any other severity appears nowhere. The
    flag is false exactly when some issue is [fatal] or [error]; so one such
    issue makes the result invalid and the errors non-empty whatever other
    issues there are. *)
Theorem issues_bucketed_by_severity (doc : json) :
  well_formed_outcome doc = true ->
  _parse_operation_outcome doc =
  Return (negb (existsb (in_bucket Errors) (issue_list doc)),
          spec_contents Errors (issue_list doc),
          spec_contents Warnings (issue_list doc),
          (spec_contents Information (issue_list doc)
           ++ match issue_list doc with
              | [] => ["Validation completed successfully"]
              | _ => []
              end)%list)
  /\ (forall issue,
        In issue (issue_list doc) -> in_bucket Errors issue = true ->
        exists es ws infos,
          _parse_operation_outcome doc = Return (false, es, ws, infos)
          /\ In (("Error: " ++ message_of issue)%string) es).
Proof.
  intros Hwf.
  assert (Hparse :
    _parse_operation_outcome doc =
    Return (negb (existsb (in_bucket Errors) (issue_list doc)),
            spec_contents Errors (issue_list doc),
            spec_contents Warnings (issue_list doc),
            (spec_contents Information (issue_list doc)
             ++ match issue_list doc with
                | [] => ["Validation completed successfully"]
                | _ => []
                end)%list)).
  { destruct doc as [| | | | | |d]; try discriminate Hwf.
    unfold well_formed_outcome in Hwf.
    apply andb_true_iff in Hwf. destruct Hwf as [Htype Hissues].
    unfold _parse_operation_outcome, issue_list. rewrite Htype.
    destruct (dict_get d "issue" (JList [])) as [| | | | |issues|];
      try discriminate Hissues.
    cbn [negb iterate rbind].
    rewrite (parse_issues_buckets issues Hissues). cbn [rbind].
    cbn [b_is_valid b_errors b_warnings b_information andb app].
    destruct issues; cbn [truthy negb andb]; rewrite ?app_nil_r; reflexivity. }
  split; [exact Hparse|].
  intros issue Hin Herr.
  rewrite Hparse.
  assert (Hex : existsb (in_bucket Errors) (issue_list doc) = true).
  { apply existsb_exists. exists issue. split; assumption. }
  rewrite Hex. do 3 eexists. split; [reflexivity|].
  unfold spec_contents.
  apply (in_map (fun i => (bucket_prefix Errors ++ message_of i)%string)).
  apply filter_In. split; assumption.
Qed.

(* ===================================================================== *)
(** ** Properties of the control flow *)
(* ===================================================================== *)

Lemma never_exits_ret {A} (a : A) : never_exits (ret a).
Proof. intros s r s' H. discriminate H. Qed.

Lemma never_exits_throw {A} (e : exn) : never_exits (@throw A e).
Proof. intros s r s' H. discriminate H. Qed.

Lemma never_exits_lift {A} (r : result A) : never_exits (lift r).
Proof. destruct r; [apply never_exits_ret | apply never_exits_throw]. Qed.

Lemma never_exits_modify (f : state -> state) : never_exits (modify f).
Proof. intros s r s' H. discriminate H. Qed.

Lemma never_exits_get : never_exits get.
Proof. intros s r s' H. discriminate H. Qed.

Lemma never_exits_bind {A B} (c : M A) (k : A -> M B) :
  never_exits c -> (forall a, never_exits (k a)) -> never_exits (bind c k).
Proof.
  intros Hc Hk s r s' H. unfold bind in H.
  destruct (c s) as [[a|e|r0] s1] eqn:Hcs.
  - exact (Hk a s1 r s' H).
  - discriminate H.
  - exact (Hc s r0 s1 Hcs).
Qed.

Lemma find_handler_in {A} (e : exn) (clauses : list (exn_class * (exn -> M A)))
    (h : exn -> M A) :
  find_handler e clauses = Some h -> exists c, In (c, h) clauses.
Proof.
  induction clauses as [|[c h'] rest IH]; simpl; [discriminate|].
  destruct (isinstance e c).
  - intros [= <-]. exists c. left. reflexivity.
  - intros H. destruct (IH H) as [c' Hin]. exists c'. right. exact Hin.
Qed.

Lemma never_exits_try_except {A} (body : M A)
    (clauses : list (exn_class * (exn -> M A))) :
  never_exits body ->
  (forall c h, In (c, h) clauses -> forall e, never_exits (h e)) ->
  never_exits (try_except body clauses).
Proof.
  intros Hbody Hclauses s r s' H. unfold try_except in H.
  destruct (body s) as [[a|e|r0] s1] eqn:Hbs.
  - discriminate H.
  - destruct (find_handler e clauses) as [h|] eqn:Hfind; [|discriminate H].
    destruct (find_handler_in _ _ Hfind) as [c Hin].
    exact (Hclauses c h Hin e s1 r s' H).
  - exact (Hbody s r0 s1 Hbs).
Qed.

Create HintDb flow.

#[local] Hint Resolve never_exits_ret never_exits_throw never_exits_lift
  never_exits_modify never_exits_get : flow.

Ltac no_exit :=
  repeat first
    [ assumption
    | apply never_exits_bind; [|intro]
    | apply never_exits_try_except;
      [| simpl; intros ? ? [[= <- <-]|[]] ?]
    | progress auto with flow
    | match goal with
      | |- never_exits (let '(_, _) := ?p in _) => destruct p
      end ].

Lemma parse_body_never_exits (resp : response) : never_exits (parse_body resp).
Proof.
  unfold parse_body, log, set_operation_outcome, extend_buckets. no_exit.
Qed.

Lemma handle_response_never_exits (resp : response) :
  never_exits (handle_response resp).
Proof.
  pose proof (parse_body_never_exits resp) as Hbody.
  unfold handle_response, append_error.
  repeat match goal with
         | |- never_exits (if ?b then _ else _) => destruct b
         end;
    no_exit.
Qed.

Lemma post_never_exits (req : request) : never_exits (post req).
Proof. unfold post, log. no_exit. Qed.

Lemma detect_resource_type_never_exits (resource_dict : json) :
  never_exits (detect_resource_type resource_dict).
Proof.
  unfold detect_resource_type, set_detected_resource_type.
  destruct resource_dict; no_exit.
  destruct (dict_contains _ _); no_exit.
Qed.

(* ===================================================================== *)
(** ** Properties of [validate_fhir_resource] *)
(* ===================================================================== *)

Lemma new_ValidationResult_fresh (v : bool) (es ws infos : list string)
    (rt outcome : json) :
  new_ValidationResult v es ws infos rt None outcome =
  Return (mkValidationResult v es ws infos rt (Some utcnow_isoformat) outcome).
Proof. reflexivity. Qed.

(** Every exception finds a clause of the outer [try], and the clause
    appends one message and falls through. *)
Lemma handlers_catch (timeout : Z) (e : exn) :
  exists h msg,
    find_handler e (handlers timeout) = Some h
    /\ forall s, h e s =
                 (Next tt,
                  mkState (st_errors s ++ [msg]) (st_warnings s)
                    (st_information s) (st_detected_resource_type s)
                    (st_operation_outcome s) (st_calls s)).
Proof.
  destruct e as [c m].
  destruct c; cbn; do 2 eexists; (split; [reflexivity|]); intros s; reflexivity.
Qed.

(** A payload that stands for a structure is loaded without effect. *)
Lemma load_resource_parsed (resource_json resource_dict : json) (s : state) :
  parsed_payload resource_json = Some resource_dict ->
  load_resource resource_json s = (Next resource_dict, s).
Proof.
  unfold parsed_payload, load_resource. intros H.
  destruct resource_json; try (injection H as <-; reflexivity).
  unfold try_except. destruct (json_loads s0); [|discriminate H].
  injection H as <-. reflexivity.
Qed.

(** The three ways [load_resource] ends. *)
Lemma load_resource_cases (resource_json : json) (s : state) :
  (exists d, parsed_payload resource_json = Some d
             /\ load_resource resource_json s = (Next d, s))
  \/ (exists text e, resource_json = JStr text /\ json_loads text = Raise e
                     /\ isinstance e JSONDecodeError = true
                     /\ load_resource resource_json s
                        = (Exit (parse_failure_result e), s))
  \/ (exists text e, resource_json = JStr text /\ json_loads text = Raise e
                     /\ isinstance e JSONDecodeError = false
                     /\ load_resource resource_json s = (Throw e, s)).
Proof.
  destruct (parsed_payload resource_json) as [d|] eqn:Hp.
  - left. exists d. split; [reflexivity|]. apply load_resource_parsed. exact Hp.
  - right. unfold parsed_payload in Hp.
    destruct resource_json as [| | | |text| |]; try discriminate Hp.
    destruct (json_loads text) as [d|e] eqn:Hl; [discriminate Hp|].
    destruct (isinstance e JSONDecodeError) eqn:Hi; [left | right];
      exists text, e; repeat (split; [reflexivity || assumption|]);
      unfold load_resource, try_except; rewrite Hl; cbn [lift throw find_handler];
      rewrite Hi; reflexivity.
Qed.

Lemma detect_resource_type_initial (resource_dict : json) (calls : list event) :
  detect_resource_type resource_dict (initial_state calls) =
  (Next tt, mkState [] [] [] (detected_type resource_dict) JNull calls).
Proof.
  unfold detect_resource_type, detected_type.
  destruct resource_dict; try reflexivity.
  destruct (dict_contains entries "resourceType"); reflexivity.
Qed.

(** Once the payload is loaded, the body of the [try] posts the request
    built from it and handles what comes back. *)
Lemma try_body_parsed (resource_json resource_dict : json)
    (fhir_server_url : string) (resource_type profile_url : option string)
    (timeout : Z) (calls : list event) :
  parsed_payload resource_json = Some resource_dict ->
  try_body resource_json fhir_server_url resource_type profile_url timeout
    (initial_state calls) =
  bind (lift (requests_post
                (request_for resource_dict fhir_server_url resource_type
                   profile_url timeout)))
       handle_response
       (mkState [] [] [] (detected_type resource_dict) JNull
          (calls ++ [Posted (request_for resource_dict fhir_server_url
                               resource_type profile_url timeout)])).
Proof.
  intros Hp. unfold try_body. unfold bind at 1.
  rewrite (load_resource_parsed _ _ Hp). unfold bind at 1.
  rewrite detect_resource_type_initial. reflexivity.
Qed.

(** The [try] ends with [return] only on the parse-failure path, before
    any call is made. *)
Lemma try_body_exit (resource_json : json) (fhir_server_url : string)
    (resource_type profile_url : option string) (timeout : Z)
    (calls : list event) (r : ValidationResult) (s : state) :
  try_body resource_json fhir_server_url resource_type profile_url timeout
    (initial_state calls) = (Exit r, s) ->
  exists e, r = parse_failure_result e /\ s = initial_state calls.
Proof.
  intros H. unfold try_body in H. unfold bind at 1 in H.
  destruct (load_resource_cases resource_json (initial_state calls))
    as [(d & _ & Hl) | [(text & e & _ & _ & _ & Hl) | (text & e & _ & _ & _ & Hl)]];
    rewrite Hl in H.
  - exfalso. revert H.
    apply never_exits_bind;
      [apply detect_resource_type_never_exits|intros _].
    apply never_exits_bind; [apply never_exits_get|intros s1].
    apply never_exits_bind;
      [apply post_never_exits | intros resp; apply handle_response_never_exits].
  - injection H as <- <-. exists e. split; reflexivity.
  - discriminate H.
Qed.

(** The call ends in one of two ways: with the parse-failure result and
    the log untouched, or with the result built from the locals. *)
Lemma validate_fhir_resource_cases (resource_json : json)
    (fhir_server_url : string) (resource_type profile_url : option string)
    (timeout : Z) (calls : list event) :
  (exists e,
      validate_fhir_resource resource_json fhir_server_url resource_type
        profile_url timeout calls = (Return (parse_failure_result e), calls))
  \/ (exists s,
      validate_fhir_resource resource_json fhir_server_url resource_type
        profile_url timeout calls = (Return (final_result s), st_calls s)).
Proof.
  unfold validate_fhir_resource, try_except.
  fold (initial_state calls).
  destruct (try_body resource_json fhir_server_url resource_type profile_url
              timeout (initial_state calls)) as [[[]|e|r] s] eqn:Hbody.
  - right. exists s. reflexivity.
  - destruct (handlers_catch timeout e) as (h & msg & Hfind & Hrun).
    rewrite Hfind, Hrun. right. eexists. reflexivity.
  - destruct (try_body_exit _ _ _ _ _ _ Hbody) as (e & -> & ->).
    left. exists e. reflexivity.
Qed.

Lemma isinstance_exception (e : exn) : isinstance e PyException = true.
Proof. destruct e as [c m]. destruct c; reflexivity. Qed.

(** C1. Whatever the inputs, the decoder and the network do, the result
    the call produces has [is_valid] equal to [len(errors) == 0]: on the
    parse-failure path, on the transport-failure paths and when an outcome
    was parsed. *)
Theorem is_valid_iff_no_errors (resource_json : json) (fhir_server_url : string)
    (resource_type profile_url : option string) (timeout : Z)
    (calls calls' : list event) (r : ValidationResult) :
  validate_fhir_resource resource_json fhir_server_url resource_type
    profile_url timeout calls = (Return r, calls') ->
  is_valid r = Nat.eqb (length (errors r)) 0.
Proof.
  intros H.
  destruct (validate_fhir_resource_cases resource_json fhir_server_url
              resource_type profile_url timeout calls) as [[e He] | [s Hs]].
  - rewrite He in H. injection H as <- _. reflexivity.
  - rewrite Hs in H. injection H as <- _. reflexivity.
Qed.

(** C2. For every payload, server URL, resource type, profile URL and
    timeout, and whatever the decoder and the network do, the call returns
    a [ValidationResult]: no exception leaves it. An exception raised
    anywhere inside the [try] ends as one more message in the errors of an
    invalid result. *)
Theorem validate_never_raises (resource_json : json) (fhir_server_url : string)
    (resource_type profile_url : option string) (timeout : Z)
    (calls : list event) :
  (exists r calls',
      validate_fhir_resource resource_json fhir_server_url resource_type
        profile_url timeout calls = (Return r, calls'))
  /\ (forall e s,
        try_body resource_json fhir_server_url resource_type profile_url
          timeout (initial_state calls) = (Throw e, s) ->
        exists r msg,
          validate_fhir_resource resource_json fhir_server_url resource_type
            profile_url timeout calls = (Return r, st_calls s)
          /\ errors r = (st_errors s ++ [msg])%list
          /\ is_valid r = false).
Proof.
  split.
  - destruct (validate_fhir_resource_cases resource_json fhir_server_url
                resource_type profile_url timeout calls) as [[e He] | [s Hs]];
      do 2 eexists; eassumption.
  - intros e s Hbody.
    unfold validate_fhir_resource, try_except. fold (initial_state calls).
    rewrite Hbody.
    destruct (handlers_catch timeout e) as (h & msg & Hfind & Hrun).
    rewrite Hfind, Hrun. cbn [st_errors st_calls].
    rewrite new_ValidationResult_fresh.
    eexists. exists msg. split; [reflexivity|]. split; [reflexivity|].
    cbn [is_valid]. rewrite length_app. cbn [length].
    rewrite Nat.add_comm. reflexivity.
Qed.

(** C3. A string payload that [json.loads] rejects ends the call at once:
    the result is invalid, it has exactly one error, warnings and
    information are empty, there is no resource type and no outcome, and
    the log of calls is as it was: nothing was sent. For the
    [JSONDecodeError] that text which is not JSON raises, the error is
    "Invalid JSON format: " followed by the decoder's message. *)
Theorem unparseable_payload_short_circuits (text : string) (e : exn)
    (fhir_server_url : string) (resource_type profile_url : option string)
    (timeout : Z) (calls : list event) :
  json_loads text = Raise e ->
  exists msg,
    validate_fhir_resource (JStr text) fhir_server_url resource_type
      profile_url timeout calls =
    (Return (mkValidationResult false [msg] [] [] JNull
               (Some utcnow_isoformat) JNull),
     calls)
    /\ (isinstance e JSONDecodeError = true ->
        msg = "Invalid JSON format: " ++ exn_str e).
Proof.
  intros Hloads.
  unfold validate_fhir_resource, try_except, try_body.
  unfold bind at 1. unfold load_resource, try_except.
  rewrite Hloads. cbn [lift throw find_handler].
  destruct (isinstance e JSONDecodeError) eqn:Hclass.
  - eexists. split; [reflexivity|]. intros _. reflexivity.
  - destruct (handlers_catch timeout e) as (h & msg & Hfind & Hrun).
    rewrite Hfind, Hrun. exists msg.
    split; [reflexivity | intros Habs; discriminate Habs].
Qed.

(** What the call does once the payload is loaded and [requests.post]
    raises: the clause the exception finds appends its message. *)
Lemma validate_transport_raises (resource_json resource_dict : json)
    (fhir_server_url : string) (resource_type profile_url : option string)
    (timeout : Z) (calls : list event) (e : exn) :
  parsed_payload resource_json = Some resource_dict ->
  requests_post (request_for resource_dict fhir_server_url resource_type
                   profile_url timeout) = Raise e ->
  forall h,
    find_handler e (handlers timeout) = Some h ->
    forall msg,
      (forall s, h e s =
                 (Next tt,
                  mkState (st_errors s ++ [msg]) (st_warnings s)
                    (st_information s) (st_detected_resource_type s)
                    (st_operation_outcome s) (st_calls s))) ->
      validate_fhir_resource resource_json fhir_server_url resource_type
        profile_url timeout calls =
      (Return (mkValidationResult false [msg] [] []
                 (detected_type resource_dict) (Some utcnow_isoformat) JNull),
       (calls ++ [Posted (request_for resource_dict fhir_server_url
                            resource_type profile_url timeout)])%list).
Proof.
  intros Hp Hpost h Hfind msg Hrun.
  unfold validate_fhir_resource, try_except. fold (initial_state calls).
  rewrite (try_body_parsed _ _ _ _ _ _ Hp). unfold bind.
  rewrite Hpost. cbn [lift throw]. rewrite Hfind, Hrun. reflexivity.
Qed.

(** C4. When [requests.post] raises, the result is invalid, has exactly
    one error and no operation outcome, and nothing is decoded. A timeout
    gives the message that names the configured timeout; a connection
    failure the connection message; any other exception of the HTTP library
    a message that ends with the text of the exception. *)
Theorem transport_failure_result (resource_json resource_dict : json)
    (fhir_server_url : string) (resource_type profile_url : option string)
    (timeout : Z) (calls : list event) (e : exn) :
  parsed_payload resource_json = Some resource_dict ->
  requests_post (request_for resource_dict fhir_server_url resource_type
                   profile_url timeout) = Raise e ->
  isinstance e RequestException = true ->
  exists msg,
    validate_fhir_resource resource_json fhir_server_url resource_type
      profile_url timeout calls =
    (Return (mkValidationResult false [msg] [] []
               (detected_type resource_dict) (Some utcnow_isoformat) JNull),
     (calls ++ [Posted (request_for resource_dict fhir_server_url
                          resource_type profile_url timeout)])%list)
    /\ (isinstance e Timeout = true ->
        msg = "Request to FHIR server timed out after "
              ++ str_of_int timeout ++ " seconds")
    /\ (isinstance e Timeout = false -> isinstance e ConnectionError = true ->
        msg = "Could not connect to FHIR server - check URL and network connectivity")
    /\ (isinstance e Timeout = false -> isinstance e ConnectionError = false ->
        msg = "Request to FHIR server failed: " ++ exn_str e).
Proof.
  intros Hp Hpost Hreq.
  pose proof (@validate_transport_raises resource_json resource_dict
                fhir_server_url resource_type profile_url timeout calls e
                Hp Hpost) as Hrun.
  unfold handlers in Hrun. cbn [find_handler] in Hrun.
  destruct (isinstance e Timeout) eqn:Ht.
  - eexists. split; [apply (Hrun _ eq_refl); intros s; reflexivity|].
    repeat split; intros; try discriminate; reflexivity.
  - destruct (isinstance e ConnectionError) eqn:Hc.
    + eexists. split; [apply (Hrun _ eq_refl); intros s; reflexivity|].
      repeat split; intros; try discriminate; reflexivity.
    + rewrite Hreq in Hrun.
      eexists. split; [apply (Hrun _ eq_refl); intros s; reflexivity|].
      repeat split; intros; try discriminate; reflexivity.
Qed.

(** C5. A response with status 404 gives exactly one error, the one about
    the missing endpoint; the body is not decoded, whatever it holds: the
    result depends neither on the text nor on what [json()] would return,
    and the log shows the request and no decoding. *)
Theorem not_found_is_not_parsed (resource_json resource_dict : json)
    (fhir_server_url : string) (resource_type profile_url : option string)
    (timeout : Z) (calls : list event) (resp : response) :
  parsed_payload resource_json = Some resource_dict ->
  requests_post (request_for resource_dict fhir_server_url resource_type
                   profile_url timeout) = Return resp ->
  status_code resp = 404 ->
  validate_fhir_resource resource_json fhir_server_url resource_type
    profile_url timeout calls =
  (Return (mkValidationResult false
             ["FHIR server validation endpoint not found - check server URL and resource type"]
             [] [] (detected_type resource_dict) (Some utcnow_isoformat) JNull),
   (calls ++ [Posted (request_for resource_dict fhir_server_url
                        resource_type profile_url timeout)])%list).
Proof.
  intros Hp Hpost Hstatus.
  unfold validate_fhir_resource, try_except. fold (initial_state calls).
  rewrite (try_body_parsed _ _ _ _ _ _ Hp). unfold bind.
  rewrite Hpost. cbn [lift ret]. unfold handle_response.
  rewrite Hstatus. reflexivity.
Qed.

(** [rstrip('/')] removes the whole run of trailing slashes and nothing
    else. *)
Lemma rstrip_slash_spec (s : string) :
  ends_with_slash (rstrip_slash s) = false
  /\ exists n, s = rstrip_slash s ++ slashes n.
Proof.
  induction s as [|c rest [IHend [n IHn]]]; simpl.
  - split; [reflexivity | exists O; reflexivity].
  - destruct (rstrip_slash rest) as [|c' kept] eqn:Hrest.
    + destruct (Ascii.eqb c "/") eqn:Hc.
      * split; [reflexivity|]. exists (S n).
        apply Ascii.eqb_eq in Hc. subst c. simpl. rewrite IHn at 1. reflexivity.
      * split; [simpl; exact Hc|]. exists n. simpl. rewrite IHn at 1. reflexivity.
    + split; [exact IHend|]. exists n. simpl. rewrite IHn at 1. reflexivity.
Qed.

(** Handling a response only adds to the log of calls. *)
Lemma extends_log_ret {A} (a : A) : extends_log (ret a).
Proof.
  intros s f s' [= <- <-]. exists []. rewrite app_nil_r. reflexivity.
Qed.

Lemma extends_log_throw {A} (e : exn) : extends_log (@throw A e).
Proof.
  intros s f s' [= <- <-]. exists []. rewrite app_nil_r. reflexivity.
Qed.

Lemma extends_log_lift {A} (r : result A) : extends_log (lift r).
Proof. destruct r; [apply extends_log_ret | apply extends_log_throw]. Qed.

Lemma extends_log_modify (f : state -> state) :
  (forall s, exists rest, st_calls (f s) = (st_calls s ++ rest)%list) ->
  extends_log (modify f).
Proof. intros Hf s fl s' [= <- <-]. apply Hf. Qed.

Lemma extends_log_bind {A B} (c : M A) (k : A -> M B) :
  extends_log c -> (forall a, extends_log (k a)) -> extends_log (bind c k).
Proof.
  intros Hc Hk s f s' H. unfold bind in H.
  destruct (c s) as [[a|e|r] s1] eqn:Hcs;
    destruct (Hc _ _ _ Hcs) as [rest1 H1].
  - destruct (Hk a _ _ _ H) as [rest2 H2].
    exists (rest1 ++ rest2)%list. rewrite H2, H1, app_assoc. reflexivity.
  - injection H as <- <-. exists rest1. exact H1.
  - injection H as <- <-. exists rest1. exact H1.
Qed.

Lemma extends_log_try_except {A} (body : M A)
    (clauses : list (exn_class * (exn -> M A))) :
  extends_log body ->
  (forall c h, In (c, h) clauses -> forall e, extends_log (h e)) ->
  extends_log (try_except body clauses).
Proof.
  intros Hbody Hclauses s f s' H. unfold try_except in H.
  destruct (body s) as [[a|e|r] s1] eqn:Hbs;
    destruct (Hbody _ _ _ Hbs) as [rest1 H1].
  - injection H as <- <-. exists rest1. exact H1.
  - destruct (find_handler e clauses) as [h|] eqn:Hfind.
    + destruct (find_handler_in _ _ Hfind) as [c Hin].
      destruct (Hclauses c h Hin e _ _ _ H) as [rest2 H2].
      exists (rest1 ++ rest2)%list. rewrite H2, H1, app_assoc. reflexivity.
    + injection H as <- <-. exists rest1. exact H1.
  - injection H as <- <-. exists rest1. exact H1.
Qed.

Ltac log_only_grows :=
  repeat first
    [ assumption
    | apply extends_log_ret
    | apply extends_log_lift
    | apply extends_log_modify; intros ?; cbn [st_calls];
      first [ exists []; rewrite app_nil_r; reflexivity
            | eexists; reflexivity ]
    | apply extends_log_try_except;
      [| simpl; intros ? ? [[= <- <-]|[]] ?]
    | apply extends_log_bind; [|intro]
    | match goal with
      | |- extends_log (let '(_, _) := ?p in _) => destruct p
      end ].

Lemma parse_body_log (resp : response) : extends_log (parse_body resp).
Proof.
  unfold parse_body, log, set_operation_outcome, extend_buckets.
  log_only_grows.
Qed.

Lemma handle_response_log (resp : response) :
  extends_log (handle_response resp).
Proof.
  pose proof (parse_body_log resp) as Hbody.
  unfold handle_response, append_error.
  repeat match goal with
         | |- extends_log (if ?b then _ else _) => destruct b
         end;
    log_only_grows.
Qed.

(** Once the payload is loaded the request is sent, and it is the first
    thing the call adds to the log. *)
Lemma validate_posts (resource_json resource_dict : json)
    (fhir_server_url : string) (resource_type profile_url : option string)
    (timeout : Z) (calls : list event) :
  parsed_payload resource_json = Some resource_dict ->
  exists rest,
    snd (validate_fhir_resource resource_json fhir_server_url resource_type
           profile_url timeout calls) =
    (calls ++ Posted (request_for resource_dict fhir_server_url resource_type
                        profile_url timeout) :: rest)%list.
Proof.
  intros Hp.
  unfold validate_fhir_resource, try_except. fold (initial_state calls).
  rewrite (try_body_parsed _ _ _ _ _ _ Hp). unfold bind.
  destruct (requests_post _) as [resp|e]; cbn [lift ret throw].
  - match goal with
    | |- context [handle_response resp ?s1] =>
        destruct (handle_response resp s1) as [[[]|e|r] s'] eqn:Hh;
        apply handle_response_log in Hh; destruct Hh as [rest Hrest];
        cbn [st_calls] in Hrest
    end.
    + exists rest. cbn [snd]. rewrite Hrest, <- app_assoc. reflexivity.
    + destruct (handlers_catch timeout e) as (h & msg & Hfind & Hrun).
      rewrite Hfind, Hrun. exists rest. cbn [snd st_calls].
      rewrite Hrest, <- app_assoc. reflexivity.
    + exists rest. cbn [snd]. rewrite Hrest, <- app_assoc. reflexivity.
  - destruct (handlers_catch timeout e) as (h & msg & Hfind & Hrun).
    rewrite Hfind, Hrun. exists []. reflexivity.
Qed.

(** C8, as amended. The validation URL. A non-empty explicit resource
    type goes into the path whatever the payload declares; when the argument
    is absent or the empty string the detected type is used if it is truthy,
    and the generic endpoint otherwise. The base URL loses its trailing
    slashes before anything is appended. The profile URL never changes the
    URL: it is sent as the [profile] query parameter, and only there. The
    request so built is the one the call posts. With base
    [https://example.org/fhir] and type [Patient] the URL is
    [https://example.org/fhir/Patient/$validate]. *)
Theorem validation_url_construction (fhir_server_url : string)
    (resource_type profile_url : option string) (detected : json) :
  (forall explicit,
      resource_type = Some explicit -> String.eqb explicit "" = false ->
      validation_url fhir_server_url resource_type detected =
      rstrip_slash fhir_server_url ++ "/" ++ explicit ++ "/$validate")
  /\ (resource_type = None \/ resource_type = Some "" ->
      truthy detected = true ->
      validation_url fhir_server_url resource_type detected =
      rstrip_slash fhir_server_url ++ "/" ++ py_str detected ++ "/$validate")
  /\ (resource_type = None \/ resource_type = Some "" ->
      truthy detected = false ->
      validation_url fhir_server_url resource_type detected =
      rstrip_slash fhir_server_url ++ "/$validate")
  /\ (ends_with_slash (rstrip_slash fhir_server_url) = false
      /\ exists n, fhir_server_url = rstrip_slash fhir_server_url ++ slashes n)
  /\ (forall resource_dict timeout,
        req_url (request_for resource_dict fhir_server_url resource_type
                   profile_url timeout) =
        validation_url fhir_server_url resource_type
          (detected_type resource_dict)
        /\ (forall other_profile,
              req_url (request_for resource_dict fhir_server_url resource_type
                         other_profile timeout) =
              req_url (request_for resource_dict fhir_server_url resource_type
                         profile_url timeout))
        /\ req_params (request_for resource_dict fhir_server_url resource_type
                         profile_url timeout) =
           match profile_url with
           | Some p => if String.eqb p "" then [] else [("profile", p)]
           | None => []
           end)
  /\ (forall resource_json resource_dict timeout calls,
        parsed_payload resource_json = Some resource_dict ->
        exists rest,
          snd (validate_fhir_resource resource_json fhir_server_url
                 resource_type profile_url timeout calls) =
          (calls ++ Posted (request_for resource_dict fhir_server_url
                              resource_type profile_url timeout) :: rest)%list)
  /\ validation_url "https://example.org/fhir" (Some "Patient") detected =
     "https://example.org/fhir/Patient/$validate".
Proof.
  repeat split.
  - intros explicit -> Hne. unfold validation_url. cbn [of_optional truthy py_str].
    rewrite Hne. reflexivity.
  - intros [-> | ->] Hdet; unfold validation_url; cbn; rewrite Hdet; reflexivity.
  - intros [-> | ->] Hdet; unfold validation_url; cbn; rewrite Hdet; reflexivity.
  - apply rstrip_slash_spec.
  - apply rstrip_slash_spec.
  - unfold request_for, params. cbn [req_params].
    destruct profile_url as [p|]; [|reflexivity].
    cbn [of_optional truthy py_str]. destruct (String.eqb p ""); reflexivity.
  - intros resource_json resource_dict timeout calls Hp.
    apply validate_posts. exact Hp.
Qed.

(* ===================================================================== *)
(** ** The result record after construction *)
(* ===================================================================== *)

(** C9, as amended. The timestamp is assigned at construction: the value
    supplied if there is one, the current UTC time otherwise, the other
    fields being stored as given; every result the call returns carries the
    time of its construction. The class is a plain dataclass, not a frozen
    one: an assignment to a field of a record succeeds and replaces that
    field. *)
Theorem timestamp_set_at_construction_fields_assignable :
  (forall v es ws infos rt outcome,
      new_ValidationResult v es ws infos rt None outcome =
      Return (mkValidationResult v es ws infos rt (Some utcnow_isoformat)
                outcome))
  /\ (forall v es ws infos rt supplied outcome,
        new_ValidationResult v es ws infos rt (Some supplied) outcome =
        Return (mkValidationResult v es ws infos rt (Some supplied) outcome))
  /\ (forall resource_json fhir_server_url resource_type profile_url timeout
             calls calls' r,
        validate_fhir_resource resource_json fhir_server_url resource_type
          profile_url timeout calls = (Return r, calls') ->
        timestamp r = Some utcnow_isoformat)
  /\ (forall r a, setattr r a = Return (assign r a)).
Proof.
  repeat split.
  intros resource_json fhir_server_url resource_type profile_url timeout
    calls calls' r H.
  destruct (validate_fhir_resource_cases resource_json fhir_server_url
              resource_type profile_url timeout calls) as [[e He] | [s Hs]].
  - rewrite He in H. injection H as <- _. reflexivity.
  - rewrite Hs in H. injection H as <- _. reflexivity.
Qed.

(* ===================================================================== *)
(** ** Further properties: the status branches *)
(* ===================================================================== *)

Local Unset Implicit Arguments.

Lemma handle_response_decoding (resp : response) :
  decodes_body (status_code resp) = true ->
  handle_response resp =
  try_except (parse_body resp)
    [ (JSONDecodeError, fun _ => append_error (undecodable_message resp)) ].
Proof.
  unfold decodes_body, handle_response, undecodable_message. intros H.
  destruct (status_code resp =? 200) eqn:H200; [reflexivity|].
  destruct (status_code resp =? 400) eqn:H400; [reflexivity|].
  cbn [orb] in H. apply Z.eqb_eq in H. rewrite H. reflexivity.
Qed.

(** After the post has returned a response, the call is the handling of
    the response under the outer clauses, from the posted state. *)
Lemma validate_response (resource_json resource_dict : json)
    (fhir_server_url : string) (resource_type profile_url : option string)
    (timeout : Z) (calls : list event) (resp : response) :
  parsed_payload resource_json = Some resource_dict ->
  requests_post (request_for resource_dict fhir_server_url resource_type
                   profile_url timeout) = Return resp ->
  validate_fhir_resource resource_json fhir_server_url resource_type
    profile_url timeout calls =
  match try_except (handle_response resp) (handlers timeout)
          (posted_state resource_dict fhir_server_url resource_type
             profile_url timeout calls) with
  | (Exit r, s) => (Return r, st_calls s)
  | (Throw e, s) => (Raise e, st_calls s)
  | (Next _, s) => (Return (final_result s), st_calls s)
  end.
Proof.
  intros Hp Hpost.
  unfold validate_fhir_resource. unfold try_except at 1.
  fold (initial_state calls).
  rewrite (try_body_parsed _ _ _ _ _ _ Hp). unfold bind.
  rewrite Hpost. cbn [lift ret].
  fold (posted_state resource_dict fhir_server_url resource_type profile_url
          timeout calls).
  unfold try_except.
  destruct (handle_response resp _) as [[[]|e|r] s]; reflexivity.
Qed.

Lemma parse_body_returns (resp : response) (outcome : json) (v : bool)
    (es ws infos : list string) (s : state) :
  json_method resp = Return outcome ->
  _parse_operation_outcome outcome = Return (v, es, ws, infos) ->
  parse_body resp s =
  (Next tt,
   mkState (st_errors s ++ es) (st_warnings s ++ ws)
     (st_information s ++ infos) (st_detected_resource_type s) outcome
     (st_calls s ++ [Decoded resp])).
Proof.
  intros Hjson Hparse. unfold parse_body, bind, log, modify.
  rewrite Hjson. cbn [lift ret set_operation_outcome modify].
  rewrite Hparse. reflexivity.
Qed.

Lemma parse_body_parser_raises (resp : response) (outcome : json) (e : exn)
    (s : state) :
  json_method resp = Return outcome ->
  _parse_operation_outcome outcome = Raise e ->
  parse_body resp s =
  (Throw e,
   mkState (st_errors s) (st_warnings s) (st_information s)
     (st_detected_resource_type s) outcome (st_calls s ++ [Decoded resp])).
Proof.
  intros Hjson Hparse. unfold parse_body, bind, log, modify.
  rewrite Hjson. cbn [lift ret set_operation_outcome modify].
  rewrite Hparse. reflexivity.
Qed.

Lemma parse_body_undecodable (resp : response) (e : exn) (s : state) :
  json_method resp = Raise e ->
  parse_body resp s =
  (Throw e,
   mkState (st_errors s) (st_warnings s) (st_information s)
     (st_detected_resource_type s) (st_operation_outcome s)
     (st_calls s ++ [Decoded resp])).
Proof.
  intros Hjson. unfold parse_body, bind, log, modify.
  rewrite Hjson. reflexivity.
Qed.

(** An exception that is not of the HTTP library goes past the first
    three outer clauses to the last one. *)
Lemma find_handler_unexpected (timeout : Z) (e : exn) :
  isinstance e RequestException = false ->
  exists h,
    find_handler e (handlers timeout) = Some h
    /\ forall s, h e s =
                 (Next tt,
                  mkState
                    (st_errors s
                     ++ ["Unexpected error during validation: " ++ exn_str e])
                    (st_warnings s) (st_information s)
                    (st_detected_resource_type s) (st_operation_outcome s)
                    (st_calls s)).
Proof.
  destruct e as [c m].
  destruct c; intros H; try discriminate H;
    eexists; (split; [reflexivity|]); intros s; reflexivity.
Qed.

(** The run of a response whose body decodes and parses. *)
Lemma validate_outcome_parsed (resource_json resource_dict : json)
    (fhir_server_url : string) (resource_type profile_url : option string)
    (timeout : Z) (calls : list event) (resp : response) (outcome : json)
    (v : bool) (es ws infos : list string) :
  parsed_payload resource_json = Some resource_dict ->
  requests_post (request_for resource_dict fhir_server_url resource_type
                   profile_url timeout) = Return resp ->
  decodes_body (status_code resp) = true ->
  json_method resp = Return outcome ->
  _parse_operation_outcome outcome = Return (v, es, ws, infos) ->
  validate_fhir_resource resource_json fhir_server_url resource_type
    profile_url timeout calls =
  (Return (mkValidationResult (is_nil es) es ws infos
             (detected_type resource_dict) (Some utcnow_isoformat) outcome),
   (calls ++ [Posted (request_for resource_dict fhir_server_url
                        resource_type profile_url timeout);
              Decoded resp])%list).
Proof.
  intros Hp Hpost Hstatus Hjson Hparse.
  rewrite (validate_response _ _ _ _ _ _ calls _ Hp Hpost).
  rewrite (handle_response_decoding _ Hstatus).
  unfold try_except.
  rewrite (parse_body_returns _ _ _ _ _ _ _ Hjson Hparse).
  unfold posted_state, final_result.
  cbn [st_errors st_warnings st_information st_detected_resource_type
       st_operation_outcome st_calls app].
  rewrite <- app_assoc. destruct es; reflexivity.
Qed.

Lemma parse_well_formed (doc : json) :
  well_formed_outcome doc = true ->
  _parse_operation_outcome doc =
  Return (negb (existsb (in_bucket Errors) (issue_list doc)),
          spec_contents Errors (issue_list doc),
          spec_contents Warnings (issue_list doc),
          (spec_contents Information (issue_list doc)
           ++ match issue_list doc with
              | [] => ["Validation completed successfully"]
              | _ => []
              end)%list).
Proof.
  intros Hwf.
  destruct doc as [| | | | | |d]; try discriminate Hwf.
  unfold well_formed_outcome in Hwf.
  apply andb_true_iff in Hwf. destruct Hwf as [Htype Hissues].
  unfold _parse_operation_outcome, issue_list. rewrite Htype.
  destruct (dict_get d "issue" (JList [])) as [| | | | |issues|];
    try discriminate Hissues.
  cbn [negb iterate rbind].
  rewrite (parse_issues_buckets issues Hissues). cbn [rbind].
  cbn [b_is_valid b_errors b_warnings b_information andb app].
  destruct issues; cbn [truthy negb andb]; rewrite ?app_nil_r; reflexivity.
Qed.

Lemma is_nil_spec_errors (issues : list json) :
  is_nil (spec_contents Errors issues) =
  negb (existsb (in_bucket Errors) issues).
Proof.
  unfold spec_contents.
  induction issues as [|issue rest IH]; [reflexivity|].
  cbn [filter existsb]. destruct (in_bucket Errors issue); [reflexivity|].
  exact IH.
Qed.

(** X1. End to end: a response of status 200, 400 or 422 whose body
    decodes to a well-formed outcome document gives the result whose
    buckets are the document's issues sorted by severity, whose flag is
    true exactly when no issue is [fatal] or [error], and which keeps the
    decoded document and the detected resource type. *)
Theorem well_formed_outcome_end_to_end (resource_json resource_dict : json)
    (fhir_server_url : string) (resource_type profile_url : option string)
    (timeout : Z) (calls : list event) (resp : response) (doc : json) :
  parsed_payload resource_json = Some resource_dict ->
  requests_post (request_for resource_dict fhir_server_url resource_type
                   profile_url timeout) = Return resp ->
  decodes_body (status_code resp) = true ->
  json_method resp = Return doc ->
  well_formed_outcome doc = true ->
  validate_fhir_resource resource_json fhir_server_url resource_type
    profile_url timeout calls =
  (Return (mkValidationResult
             (negb (existsb (in_bucket Errors) (issue_list doc)))
             (spec_contents Errors (issue_list doc))
             (spec_contents Warnings (issue_list doc))
             (spec_contents Information (issue_list doc)
              ++ match issue_list doc with
                 | [] => ["Validation completed successfully"]
                 | _ => []
                 end)
             (detected_type resource_dict) (Some utcnow_isoformat) doc),
   (calls ++ [Posted (request_for resource_dict fhir_server_url
                        resource_type profile_url timeout);
              Decoded resp])%list).
Proof.
  intros Hp Hpost Hstatus Hjson Hwf.
  rewrite (validate_outcome_parsed _ _ _ _ _ _ calls _ _ _ _ _ _
             Hp Hpost Hstatus Hjson (parse_well_formed doc Hwf)).
  rewrite is_nil_spec_errors. reflexivity.
Qed.

(** X2. A response of status 200, 400 or 422 whose body [json()] cannot
    decode gives an invalid result with one error and no outcome: for 200
    the fixed message, for 400 and 422 the message that carries the status
    and the raw text. The decoding was attempted once. *)
Theorem undecodable_body_is_one_error (resource_json resource_dict : json)
    (fhir_server_url : string) (resource_type profile_url : option string)
    (timeout : Z) (calls : list event) (resp : response) (e : exn) :
  parsed_payload resource_json = Some resource_dict ->
  requests_post (request_for resource_dict fhir_server_url resource_type
                   profile_url timeout) = Return resp ->
  decodes_body (status_code resp) = true ->
  json_method resp = Raise e ->
  isinstance e JSONDecodeError = true ->
  exists msg,
    validate_fhir_resource resource_json fhir_server_url resource_type
      profile_url timeout calls =
    (Return (mkValidationResult false [msg] [] []
               (detected_type resource_dict) (Some utcnow_isoformat) JNull),
     (calls ++ [Posted (request_for resource_dict fhir_server_url
                          resource_type profile_url timeout);
                Decoded resp])%list)
    /\ (status_code resp = 200 ->
        msg = "Server returned invalid JSON response")
    /\ (status_code resp <> 200 ->
        msg = "Validation failed with status "
              ++ str_of_int (status_code resp) ++ ": " ++ text resp).
Proof.
  intros Hp Hpost Hstatus Hjson Hclass.
  exists (undecodable_message resp). split.
  - rewrite (validate_response _ _ _ _ _ _ calls _ Hp Hpost).
    rewrite (handle_response_decoding _ Hstatus).
    unfold try_except.
    rewrite (parse_body_undecodable _ _ _ Hjson).
    cbn [find_handler]. rewrite Hclass.
    unfold posted_state, append_error, modify, final_result.
    cbn [st_errors st_warnings st_information st_detected_resource_type
         st_operation_outcome st_calls app length Nat.eqb].
    rewrite <- app_assoc. reflexivity.
  - unfold undecodable_message. split; intros H.
    + rewrite H. reflexivity.
    + apply Z.eqb_neq in H. rewrite H. reflexivity.
Qed.

(** X3. A response of any status other than 200, 400, 404 and 422 gives
    an invalid result with the one error that carries the status and the
    raw text; the body is not decoded and no outcome is kept. *)
Theorem other_status_is_reported (resource_json resource_dict : json)
    (fhir_server_url : string) (resource_type profile_url : option string)
    (timeout : Z) (calls : list event) (resp : response) :
  parsed_payload resource_json = Some resource_dict ->
  requests_post (request_for resource_dict fhir_server_url resource_type
                   profile_url timeout) = Return resp ->
  decodes_body (status_code resp) = false ->
  status_code resp <> 404 ->
  validate_fhir_resource resource_json fhir_server_url resource_type
    profile_url timeout calls =
  (Return (mkValidationResult false
             ["FHIR server returned status "
              ++ str_of_int (status_code resp) ++ ": " ++ text resp]
             [] [] (detected_type resource_dict) (Some utcnow_isoformat) JNull),
   (calls ++ [Posted (request_for resource_dict fhir_server_url
                        resource_type profile_url timeout)])%list).
Proof.
  intros Hp Hpost Hstatus H404.
  rewrite (validate_response _ _ _ _ _ _ calls _ Hp Hpost).
  unfold decodes_body in Hstatus.
  apply orb_false_iff in Hstatus. destruct Hstatus as [Hstatus H422].
  apply orb_false_iff in Hstatus. destruct Hstatus as [H200 H400].
  apply Z.eqb_neq in H404.
  unfold handle_response. rewrite H200, H400, H404, H422.
  reflexivity.
Qed.

(** X4. A body that decodes to something that is not an outcome document
    (not an object, or an object whose [resourceType] is missing or is not
    [OperationOutcome]) gives an invalid result with the one format error,
    and the decoded body is kept in [operation_outcome]. *)
Theorem not_an_outcome_document (resource_json resource_dict : json)
    (fhir_server_url : string) (resource_type profile_url : option string)
    (timeout : Z) (calls : list event) (resp : response) (body : json) :
  parsed_payload resource_json = Some resource_dict ->
  requests_post (request_for resource_dict fhir_server_url resource_type
                   profile_url timeout) = Return resp ->
  decodes_body (status_code resp) = true ->
  json_method resp = Return body ->
  eq_str (match body with
          | JDict d => dict_get d "resourceType" JNull
          | _ => JNull
          end) "OperationOutcome" = false ->
  validate_fhir_resource resource_json fhir_server_url resource_type
    profile_url timeout calls =
  (Return (mkValidationResult false
             [if isinstance_dict body
              then "Expected OperationOutcome resource from validation endpoint"
              else "Invalid OperationOutcome format"]
             [] [] (detected_type resource_dict) (Some utcnow_isoformat) body),
   (calls ++ [Posted (request_for resource_dict fhir_server_url
                        resource_type profile_url timeout);
              Decoded resp])%list).
Proof.
  intros Hp Hpost Hstatus Hjson Htype.
  assert (Hparse :
    _parse_operation_outcome body =
    Return (false,
            [if isinstance_dict body
             then "Expected OperationOutcome resource from validation endpoint"
             else "Invalid OperationOutcome format"], [], [])).
  { destruct body; try reflexivity.
    unfold _parse_operation_outcome. rewrite Htype. reflexivity. }
  rewrite (validate_outcome_parsed _ _ _ _ _ _ calls _ _ _ _ _ _
             Hp Hpost Hstatus Hjson Hparse).
  reflexivity.
Qed.

(* ===================================================================== *)
(** ** Further properties: the outcome parser *)
(* ===================================================================== *)

Lemma join_items_raises (items : list json) :
  forall idx e, join_items idx items = Raise e -> exn_cls e = TypeError.
Proof.
  induction items as [|v rest IH]; intros idx e H; [discriminate H|].
  cbn [join_items] in H.
  destruct v; try (injection H as <-; reflexivity).
  destruct (join_items (idx + 1) rest) as [ss|e'] eqn:Hrest; [discriminate H|].
  injection H as <-. exact (IH _ _ Hrest).
Qed.

Lemma str_join_raises (sep : string) (v : json) (e : exn) :
  str_join sep v = Raise e -> exn_cls e = TypeError.
Proof.
  unfold str_join. intros H.
  destruct (iterate v) as [items|e0]; [|injection H as <-; reflexivity].
  destruct (join_items 0 items) as [ss|e'] eqn:Hitems; [discriminate H|].
  injection H as <-. exact (join_items_raises _ _ _ Hitems).
Qed.

Lemma issue_message_raises (d : dict) (e : exn) :
  issue_message d = Raise e -> exn_cls e = TypeError.
Proof.
  unfold issue_message. intros H.
  destruct (truthy (dict_get d "location" (JList []))).
  - destruct (str_join ", " (dict_get d "location" (JList [])))
      as [joined|e'] eqn:Hjoin; cbn [rbind] in H.
    + exact (str_join_raises _ _ _ H).
    + injection H as <-. exact (str_join_raises _ _ _ Hjoin).
  - cbn [rbind] in H. exact (str_join_raises _ _ _ H).
Qed.

Lemma parse_issue_raises (acc : buckets) (issue : json) (e : exn) :
  parse_issue acc issue = Raise e -> exn_cls e = TypeError.
Proof.
  unfold parse_issue. intros H.
  destruct issue as [| | | | | |d]; try discriminate H.
  destruct (issue_message d) as [message|e'] eqn:Hmessage; cbn [rbind] in H.
  - repeat match type of H with
           | (if ?b then _ else _) = _ => destruct b
           end; discriminate H.
  - injection H as <-. exact (issue_message_raises _ _ Hmessage).
Qed.

Lemma parse_issues_raises (issues : list json) :
  forall acc e, parse_issues acc issues = Raise e -> exn_cls e = TypeError.
Proof.
  induction issues as [|issue rest IH]; intros acc e H; [discriminate H|].
  cbn [parse_issues] in H.
  destruct (parse_issue acc issue) as [acc'|e'] eqn:Hissue.
  - exact (IH _ _ H).
  - injection H as <-. exact (parse_issue_raises _ _ _ Hissue).
Qed.

(** The only exception the parser raises is [TypeError]. *)
Lemma parser_raises_type_error (doc : json) (e : exn) :
  _parse_operation_outcome doc = Raise e -> exn_cls e = TypeError.
Proof.
  unfold _parse_operation_outcome. intros H.
  destruct doc as [| | | | | |d]; try discriminate H.
  destruct (negb _); [discriminate H|].
  destruct (dict_get d "issue" (JList [])) as [| | | | |l|kv] eqn:Hissue;
    cbn [iterate rbind] in H;
    try (injection H as <-; reflexivity);
    match type of H with
    | rbind (parse_issues ?acc ?items) _ = _ =>
        destruct (parse_issues acc items) as [acc'|e'] eqn:Hrun;
        cbn [rbind] in H;
        [discriminate H | injection H as <-; exact (parse_issues_raises _ _ _ Hrun)]
    end.
Qed.

(** X5. When the parser raises on the decoded body, the call still
    returns: the result is invalid, its only error is the unexpected-error
    message with the text of the exception, warnings and information are
    empty whatever issues were read before the failure, and the decoded body
    is kept in [operation_outcome]. *)
Theorem parser_failure_is_one_error (resource_json resource_dict : json)
    (fhir_server_url : string) (resource_type profile_url : option string)
    (timeout : Z) (calls : list event) (resp : response) (body : json)
    (e : exn) :
  parsed_payload resource_json = Some resource_dict ->
  requests_post (request_for resource_dict fhir_server_url resource_type
                   profile_url timeout) = Return resp ->
  decodes_body (status_code resp) = true ->
  json_method resp = Return body ->
  _parse_operation_outcome body = Raise e ->
  validate_fhir_resource resource_json fhir_server_url resource_type
    profile_url timeout calls =
  (Return (mkValidationResult false
             ["Unexpected error during validation: " ++ exn_str e] [] []
             (detected_type resource_dict) (Some utcnow_isoformat) body),
   (calls ++ [Posted (request_for resource_dict fhir_server_url
                        resource_type profile_url timeout);
              Decoded resp])%list).
Proof.
  intros Hp Hpost Hstatus Hjson Hparse.
  pose proof (parser_raises_type_error _ _ Hparse) as Hclass.
  assert (Hinner : isinstance e JSONDecodeError = false).
  { unfold isinstance. rewrite Hclass. reflexivity. }
  assert (Houter : isinstance e RequestException = false).
  { unfold isinstance. rewrite Hclass. reflexivity. }
  destruct (find_handler_unexpected timeout e Houter) as (h & Hfind & Hrun).
  rewrite (validate_response _ _ _ _ _ _ calls _ Hp Hpost).
  rewrite (handle_response_decoding _ Hstatus).
  unfold try_except.
  rewrite (parse_body_parser_raises _ _ _ _ Hjson Hparse).
  cbn [find_handler]. rewrite Hinner, Hfind, Hrun.
  unfold posted_state, final_result.
  cbn [st_errors st_warnings st_information st_detected_resource_type
       st_operation_outcome st_calls app length Nat.eqb].
  rewrite <- app_assoc. reflexivity.
Qed.

Lemma is_nil_snoc {A} (l : list A) (x : A) : is_nil (l ++ [x]) = false.
Proof. destruct l; reflexivity. Qed.

Lemma parse_issue_flag (acc acc' : buckets) (issue : json) :
  b_is_valid acc = is_nil (b_errors acc) ->
  parse_issue acc issue = Return acc' ->
  b_is_valid acc' = is_nil (b_errors acc').
Proof.
  unfold parse_issue. intros Hinv H.
  destruct issue as [| | | | | |d]; try (injection H as <-; exact Hinv).
  destruct (issue_message d) as [message|e]; cbn [rbind] in H;
    [|discriminate H].
  repeat match type of H with
         | (if ?b then _ else _) = _ => destruct b
         end;
    injection H as <-; cbn [b_is_valid b_errors];
    try exact Hinv.
  symmetry. apply is_nil_snoc.
Qed.

Lemma parse_issues_flag (issues : list json) :
  forall acc acc',
    b_is_valid acc = is_nil (b_errors acc) ->
    parse_issues acc issues = Return acc' ->
    b_is_valid acc' = is_nil (b_errors acc').
Proof.
  induction issues as [|issue rest IH]; intros acc acc' Hinv H.
  - injection H as <-. exact Hinv.
  - cbn [parse_issues] in H.
    destruct (parse_issue acc issue) as [acc1|e] eqn:Hissue; [|discriminate H].
    exact (IH _ _ (parse_issue_flag _ _ _ Hinv Hissue) H).
Qed.

(** X6. Whatever document the parser is given, when it returns, its own
    flag is true exactly when its errors are empty: the flag the caller
    recomputes from the errors is the flag the parser returned. *)
Theorem parser_flag_agrees_with_errors (doc : json) (v : bool)
    (es ws infos : list string) :
  _parse_operation_outcome doc = Return (v, es, ws, infos) ->
  v = is_nil es.
Proof.
  unfold _parse_operation_outcome. intros H.
  destruct doc as [| | | | | |d]; try (injection H as <- <- _ _; reflexivity).
  destruct (negb _); [injection H as <- <- _ _; reflexivity|].
  destruct (iterate (dict_get d "issue" (JList []))) as [items|e];
    cbn [rbind] in H; [|discriminate H].
  destruct (parse_issues (mkBuckets true [] [] []) items) as [acc|e] eqn:Hrun;
    cbn [rbind] in H; [|discriminate H].
  injection H as <- <- _ _.
  exact (parse_issues_flag items (mkBuckets true [] [] []) acc eq_refl Hrun).
Qed.

Lemma join_items_non_string (items : list json) :
  existsb (fun v => negb (isinstance_str v)) items = true ->
  forall idx, exists e, join_items idx items = Raise e.
Proof.
  induction items as [|v rest IH]; intros H idx; [discriminate H|].
  cbn [existsb] in H. cbn [join_items].
  destruct v; try (eexists; reflexivity).
  cbn [isinstance_str negb orb] in H.
  destruct (IH H (idx + 1)) as [e He]. rewrite He. exists e. reflexivity.
Qed.

Lemma str_join_non_string (sep : string) (items : list json) :
  existsb (fun v => negb (isinstance_str v)) items = true ->
  exists e, str_join sep (JList items) = Raise e.
Proof.
  intros H. unfold str_join. cbn [iterate].
  destruct (join_items_non_string items H 0) as [e He]. rewrite He.
  exists e. reflexivity.
Qed.

Lemma issue_message_bad_diagnostics (d : dict) :
  truthy_non_string (dict_get d "diagnostics" (JStr "")) = true ->
  exists e, issue_message d = Raise e.
Proof.
  unfold truthy_non_string, issue_message. intros H.
  apply andb_true_iff in H. destruct H as [Htruthy Hnon].
  rewrite Htruthy.
  set (parts0 := match dict_get d "details" (JDict []) with
                 | JDict _ => _
                 | _ => _
                 end).
  assert (Hbad : existsb (fun v => negb (isinstance_str v))
                   (parts0 ++ [dict_get d "diagnostics" (JStr "")]) = true).
  { rewrite existsb_app. cbn [existsb]. rewrite Hnon.
    rewrite orb_true_r. reflexivity. }
  assert (Hne : forall tail,
             truthy (JList ((parts0 ++ [dict_get d "diagnostics" (JStr "")])
                            ++ tail)) = true).
  { intros tail. destruct parts0; reflexivity. }
  destruct (truthy (dict_get d "location" (JList []))).
  - destruct (str_join ", " (dict_get d "location" (JList []))) as [joined|e];
      cbn [rbind]; [|exists e; reflexivity].
    rewrite Hne. cbn [negb].
    apply str_join_non_string. rewrite existsb_app, Hbad. reflexivity.
  - cbn [rbind].
    assert (Hne0 : truthy (JList (parts0 ++ [dict_get d "diagnostics" (JStr "")]))
                   = true).
    { destruct parts0; reflexivity. }
    rewrite Hne0. cbn [negb].
    apply str_join_non_string. exact Hbad.
Qed.

Lemma parse_issues_bad_issue (issues : list json) (d : dict) :
  In (JDict d) issues ->
  (exists e, issue_message d = Raise e) ->
  forall acc, exists e, parse_issues acc issues = Raise e.
Proof.
  intros Hin [e0 Hmessage].
  induction issues as [|issue rest IH]; intros acc; [contradiction Hin|].
  cbn [parse_issues].
  destruct (parse_issue acc issue) as [acc'|e] eqn:Hissue;
    [|exists e; reflexivity].
  destruct Hin as [-> | Hin].
  - unfold parse_issue in Hissue. rewrite Hmessage in Hissue.
    discriminate Hissue.
  - exact (IH Hin acc').
Qed.

(** X7. One issue whose [diagnostics] is a truthy value that is not a
    string (a number, a list, an object) makes the parser raise [TypeError]
    for the whole document, whatever the other issues are. *)
Theorem ill_typed_diagnostics_raises (d issue : dict) (issues : list json) :
  eq_str (dict_get d "resourceType" JNull) "OperationOutcome" = true ->
  dict_get d "issue" (JList []) = JList issues ->
  In (JDict issue) issues ->
  truthy_non_string (dict_get issue "diagnostics" (JStr "")) = true ->
  exists e,
    _parse_operation_outcome (JDict d) = Raise e /\ exn_cls e = TypeError.
Proof.
  intros Htype Hissues Hin Hbad.
  destruct (parse_issues_bad_issue issues issue Hin
              (issue_message_bad_diagnostics issue Hbad)
              (mkBuckets true [] [] [])) as [e He].
  assert (Hparse : _parse_operation_outcome (JDict d) = Raise e).
  { unfold _parse_operation_outcome. rewrite Htype, Hissues.
    cbn [negb iterate rbind]. rewrite He. reflexivity. }
  exists e. split; [exact Hparse|].
  exact (parser_raises_type_error _ _ Hparse).
Qed.

(** X8. An issue without a [severity] key counts as an error: in a
    well-formed document it makes the result invalid and its message is
    among the errors. *)
Theorem missing_severity_is_error (doc : json) (issue : dict) :
  well_formed_outcome doc = true ->
  In (JDict issue) (issue_list doc) ->
  dict_contains issue "severity" = false ->
  exists es ws infos,
    _parse_operation_outcome doc = Return (false, es, ws, infos)
    /\ In (("Error: " ++ message_of (JDict issue))%string) es.
Proof.
  intros Hwf Hin Habsent.
  assert (Herr : in_bucket Errors (JDict issue) = true).
  { unfold in_bucket, severity_of.
    rewrite (dict_get_absent issue "severity" (JStr "error") Habsent).
    reflexivity. }
  rewrite (parse_well_formed doc Hwf).
  assert (Hex : existsb (in_bucket Errors) (issue_list doc) = true).
  { apply existsb_exists. exists (JDict issue). split; assumption. }
  rewrite Hex. do 3 eexists. split; [reflexivity|].
  unfold spec_contents.
  apply (in_map (fun i => (bucket_prefix Errors ++ message_of i)%string)).
  apply filter_In. split; assumption.
Qed.

Lemma join_items_strings_of (l : list string) :
  forall idx, join_items idx (map JStr l) = Return l.
Proof.
  induction l as [|s rest IH]; intros idx; [reflexivity|].
  cbn [map join_items]. rewrite IH. reflexivity.
Qed.

Lemma str_join_strings_of (sep : string) (l : list string) :
  str_join sep (JList (map JStr l)) = Return (String.concat sep l).
Proof.
  unfold str_join. cbn [iterate]. rewrite join_items_strings_of. reflexivity.
Qed.

(** X9. The message of an issue is its non-empty detail text, its
    non-empty diagnostics and, when there are locations, "Location: "
    followed by the locations separated by ", ", in that order and
    separated by " - "; when all three are empty it is
    "Validation issue (code)". *)
Theorem issue_message_composition (severity code : json)
    (detail_text diagnostics : string) (locations : list string) :
  issue_message (typed_issue severity code detail_text diagnostics locations) =
  Return (String.concat " - "
            (match (text_part detail_text ++ text_part diagnostics
                    ++ location_part locations)%list with
             | [] => ["Validation issue (" ++ py_str code ++ ")"]
             | parts => parts
             end)).
Proof.
  unfold issue_message, typed_issue, text_part, location_part.
  cbn [dict_get String.eqb Ascii.eqb Bool.eqb truthy].
  destruct (String.eqb detail_text ""); destruct (String.eqb diagnostics "");
    destruct locations as [|loc locs];
    cbn [negb map truthy app rbind];
    try (change (JStr loc :: map JStr locs) with (map JStr (loc :: locs));
         rewrite str_join_strings_of; cbn [rbind app negb]);
    unfold str_join; cbn [iterate join_items]; reflexivity.
Qed.

(** X10. An issue that has no [details], no [diagnostics] and no
    [location] key gets the fallback message built from its code, and
    "Validation issue (unknown)" when it has no [code] key either. *)
Theorem issue_message_fallback (issue : dict) :
  dict_contains issue "details" = false ->
  dict_contains issue "diagnostics" = false ->
  dict_contains issue "location" = false ->
  issue_message issue =
  Return ("Validation issue ("
          ++ py_str (dict_get issue "code" (JStr "unknown")) ++ ")")
  /\ (dict_contains issue "code" = false ->
      issue_message issue = Return "Validation issue (unknown)").
Proof.
  intros Hdetails Hdiag Hloc.
  assert (H : issue_message issue =
              Return ("Validation issue ("
                      ++ py_str (dict_get issue "code" (JStr "unknown")) ++ ")")).
  { unfold issue_message.
    rewrite (dict_get_absent issue "details" (JDict []) Hdetails).
    rewrite (dict_get_absent issue "diagnostics" (JStr "") Hdiag).
    rewrite (dict_get_absent issue "location" (JList []) Hloc).
    cbn [truthy String.eqb negb rbind app].
    unfold str_join. cbn [iterate join_items String.concat]. reflexivity. }
  split; [exact H|].
  intros Hcode. rewrite H.
  rewrite (dict_get_absent issue "code" (JStr "unknown") Hcode). reflexivity.
Qed.

Lemma success_note_not_info (issues : list json) :
  ~ In "Validation completed successfully" (spec_contents Information issues).
Proof.
  unfold spec_contents. intros H. apply in_map_iff in H.
  destruct H as (issue & Heq & _). cbn [bucket_prefix] in Heq.
  discriminate Heq.
Qed.

(** X11. For a well-formed document, the information holds
    "Validation completed successfully" exactly when the issue list is
    empty: a document with issues never gets the success note, whatever
    their severities. *)
Theorem success_note_iff_no_issue (doc : json) (v : bool)
    (es ws infos : list string) :
  well_formed_outcome doc = true ->
  _parse_operation_outcome doc = Return (v, es, ws, infos) ->
  (In "Validation completed successfully" infos <-> issue_list doc = []).
Proof.
  intros Hwf Hparse.
  rewrite (parse_well_formed doc Hwf) in Hparse.
  injection Hparse as _ _ _ <-.
  split.
  - intros Hin. apply in_app_or in Hin. destruct Hin as [Hin | Hin].
    + exfalso. exact (success_note_not_info _ Hin).
    + destruct (issue_list doc); [reflexivity | contradiction Hin].
  - intros ->. apply in_or_app. right. left. reflexivity.
Qed.

Lemma spec_contents_none (b : bucket) (issues : list json) :
  (forall issue, In issue issues -> in_bucket b issue = false) ->
  spec_contents b issues = [].
Proof.
  unfold spec_contents.
  induction issues as [|issue rest IH]; intros H; [reflexivity|].
  cbn [filter]. rewrite (H issue (or_introl eq_refl)).
  apply IH. intros i Hi. apply H. right. exact Hi.
Qed.

(** X12. A well-formed document that has issues, none of which has one of
    the four known severities, parses to a valid result with nothing in any
    bucket: the issues leave no trace and there is no success note. *)
Theorem unknown_severities_leave_no_trace (doc : json) :
  well_formed_outcome doc = true ->
  issue_list doc <> [] ->
  (forall issue b, In issue (issue_list doc) -> in_bucket b issue = false) ->
  _parse_operation_outcome doc = Return (true, [], [], []).
Proof.
  intros Hwf Hne Hnone.
  rewrite (parse_well_formed doc Hwf).
  rewrite !spec_contents_none by (intros i Hi; apply Hnone; exact Hi).
  assert (Hex : existsb (in_bucket Errors) (issue_list doc) = false).
  { destruct (existsb (in_bucket Errors) (issue_list doc)) eqn:Hex;
      [|reflexivity].
    apply existsb_exists in Hex. destruct Hex as (i & Hi & Hb).
    rewrite (Hnone i Errors Hi) in Hb. discriminate Hb. }
  rewrite Hex. destruct (issue_list doc); [contradiction|reflexivity].
Qed.

Lemma in_bucket_exclusive (issue : json) (b1 b2 : bucket) :
  in_bucket b1 issue = true -> in_bucket b2 issue = true -> b1 = b2.
Proof.
  unfold in_bucket. destruct issue; try discriminate.
  destruct (spec_bucket _) as [b|]; [|discriminate].
  destruct b1, b2, b; cbn [bucket_eqb]; intros H1 H2;
    reflexivity || discriminate.
Qed.

Lemma bucket_lengths (issues : list json) :
  (length (spec_contents Errors issues)
   + length (spec_contents Warnings issues)
   + length (spec_contents Information issues))%nat =
  length (filter has_known_severity issues).
Proof.
  unfold spec_contents. rewrite !length_map.
  induction issues as [|issue rest IH]; [reflexivity|].
  cbn [filter]. unfold has_known_severity at 1.
  destruct (in_bucket Errors issue) eqn:HE;
    destruct (in_bucket Warnings issue) eqn:HW;
    destruct (in_bucket Information issue) eqn:HI;
    cbn [orb length];
    try (pose proof (in_bucket_exclusive _ _ _ HE HW) as Habs;
         discriminate Habs);
    try (pose proof (in_bucket_exclusive _ _ _ HE HI) as Habs;
         discriminate Habs);
    try (pose proof (in_bucket_exclusive _ _ _ HW HI) as Habs;
         discriminate Habs);
    lia.
Qed.

(** X19. In a well-formed document every issue with a known severity
    gives exactly one message in exactly one bucket: the three buckets
    together hold as many messages as there are such issues, plus the
    success note when the list is empty, and never more than the document
    has issues. *)
Theorem one_message_per_known_issue (doc : json) (v : bool)
    (es ws infos : list string) :
  well_formed_outcome doc = true ->
  _parse_operation_outcome doc = Return (v, es, ws, infos) ->
  (length es + length ws + length infos)%nat =
  (length (filter has_known_severity (issue_list doc))
   + (if is_nil (issue_list doc) then 1 else 0))%nat
  /\ (length (filter has_known_severity (issue_list doc))
      <= length (issue_list doc))%nat.
Proof.
  intros Hwf Hparse.
  rewrite (parse_well_formed doc Hwf) in Hparse.
  injection Hparse as _ <- <- <-.
  split; [|apply filter_length_le].
  rewrite length_app, <- bucket_lengths.
  destruct (issue_list doc); cbn [is_nil length]; lia.
Qed.

(* ===================================================================== *)
(** ** Further properties: the call as a whole *)
(* ===================================================================== *)

(** What handling a response leaves of the locals and of the log: the
    detected type is untouched, the log gains the decoding exactly for the
    statuses whose body is decoded, and no [return] is executed. *)
Lemma handle_response_frame (resp : response) (s s' : state) (f : flow unit) :
  handle_response resp s = (f, s') ->
  st_detected_resource_type s' = st_detected_resource_type s
  /\ st_calls s' = (if decodes_body (status_code resp)
                    then st_calls s ++ [Decoded resp]
                    else st_calls s)%list.
Proof.
  destruct (decodes_body (status_code resp)) eqn:Hstatus.
  - rewrite (handle_response_decoding _ Hstatus). unfold try_except.
    destruct (json_method resp) as [outcome|e] eqn:Hjson.
    + destruct (_parse_operation_outcome outcome) as [[[[v es] ws] infos]|e]
        eqn:Hparse.
      * rewrite (parse_body_returns _ _ _ _ _ _ _ Hjson Hparse).
        intros [= <- <-]. split; reflexivity.
      * rewrite (parse_body_parser_raises _ _ _ _ Hjson Hparse).
        cbn [find_handler]. destruct (isinstance e JSONDecodeError);
          intros [= <- <-]; split; reflexivity.
    + rewrite (parse_body_undecodable _ _ _ Hjson).
      cbn [find_handler]. destruct (isinstance e JSONDecodeError);
        intros [= <- <-]; split; reflexivity.
  - unfold decodes_body in Hstatus.
    apply orb_false_iff in Hstatus. destruct Hstatus as [Hstatus H422].
    apply orb_false_iff in Hstatus. destruct Hstatus as [H200 H400].
    unfold handle_response. rewrite H200, H400, H422.
    destruct (status_code resp =? 404); intros [= <- <-]; split; reflexivity.
Qed.

(** The locals and the log at the end of a call whose request got a
    response. *)
Lemma validate_response_frame (resource_json resource_dict : json)
    (fhir_server_url : string) (resource_type profile_url : option string)
    (timeout : Z) (calls : list event) (resp : response) :
  parsed_payload resource_json = Some resource_dict ->
  requests_post (request_for resource_dict fhir_server_url resource_type
                   profile_url timeout) = Return resp ->
  exists s,
    validate_fhir_resource resource_json fhir_server_url resource_type
      profile_url timeout calls = (Return (final_result s), st_calls s)
    /\ st_detected_resource_type s = detected_type resource_dict
    /\ st_calls s =
       (if decodes_body (status_code resp)
        then calls ++ [Posted (request_for resource_dict fhir_server_url
                                 resource_type profile_url timeout);
                       Decoded resp]
        else calls ++ [Posted (request_for resource_dict fhir_server_url
                                 resource_type profile_url timeout)])%list.
Proof.
  intros Hp Hpost.
  rewrite (validate_response _ _ _ _ _ _ calls _ Hp Hpost).
  unfold try_except.
  destruct (handle_response resp _) as [[[]|e|r] s] eqn:Hh;
    pose proof (handle_response_frame _ _ _ _ Hh) as [Hdet Hcalls];
    unfold posted_state in Hdet, Hcalls;
    cbn [st_detected_resource_type st_calls] in Hdet, Hcalls.
  - exists s. split; [reflexivity|]. split; [exact Hdet|].
    rewrite Hcalls. destruct (decodes_body _);
      [rewrite <- app_assoc|]; reflexivity.
  - destruct (handlers_catch timeout e) as (h & msg & Hfind & Hrun).
    rewrite Hfind, Hrun. eexists. split; [reflexivity|].
    cbn [st_detected_resource_type st_calls]. split; [exact Hdet|].
    rewrite Hcalls. destruct (decodes_body _);
      [rewrite <- app_assoc|]; reflexivity.
  - exfalso. revert Hh. apply handle_response_never_exits.
Qed.

(** X13. A call makes at most one request and never repeats it: once the
    payload is loaded, what the call adds to the log is the one POST,
    followed by one decoding of the response exactly when a response came
    back with status 200, 400 or 422, and nothing else. *)
Theorem one_request_per_call (resource_json resource_dict : json)
    (fhir_server_url : string) (resource_type profile_url : option string)
    (timeout : Z) (calls : list event) :
  parsed_payload resource_json = Some resource_dict ->
  snd (validate_fhir_resource resource_json fhir_server_url resource_type
         profile_url timeout calls) =
  (calls
   ++ Posted (request_for resource_dict fhir_server_url resource_type
                profile_url timeout)
      :: match requests_post (request_for resource_dict fhir_server_url
                                resource_type profile_url timeout) with
         | Return resp =>
             if decodes_body (status_code resp) then [Decoded resp] else []
         | Raise _ => []
         end)%list.
Proof.
  intros Hp.
  destruct (requests_post _) as [resp|e] eqn:Hpost.
  - destruct (validate_response_frame _ _ _ _ _ _ calls _ Hp Hpost)
      as (s & Hrun & _ & Hcalls).
    rewrite Hrun. cbn [snd]. rewrite Hcalls.
    destruct (decodes_body _); reflexivity.
  - destruct (handlers_catch timeout e) as (h & msg & Hfind & Hrun).
    rewrite (@validate_transport_raises resource_json resource_dict
               fhir_server_url resource_type profile_url timeout calls e
               Hp Hpost h Hfind msg Hrun).
    reflexivity.
Qed.

(** X14. The result reports the resource type read from the payload on
    every path that got as far as the request: whether the network failed,
    the status was an error or the outcome was parsed, [resource_type] is
    the payload's [resourceType], or [None] when the payload has none or is
    not an object. *)
Theorem resource_type_is_detected (resource_json resource_dict : json)
    (fhir_server_url : string) (type_argument profile_url : option string)
    (timeout : Z) (calls calls' : list event) (r : ValidationResult) :
  parsed_payload resource_json = Some resource_dict ->
  validate_fhir_resource resource_json fhir_server_url type_argument
    profile_url timeout calls = (Return r, calls') ->
  resource_type r = detected_type resource_dict
  /\ (isinstance_dict resource_dict = false -> resource_type r = JNull)
  /\ (forall d, resource_dict = JDict d ->
                dict_contains d "resourceType" = false ->
                resource_type r = JNull).
Proof.
  intros Hp Hrun.
  assert (Hdet : resource_type r = detected_type resource_dict).
  { destruct (requests_post (request_for resource_dict fhir_server_url
                               type_argument profile_url timeout))
      as [resp|e] eqn:Hpost.
    - destruct (validate_response_frame _ _ _ _ _ _ calls _ Hp Hpost)
        as (s & Hs & Hdet & _).
      rewrite Hs in Hrun. injection Hrun as <- _. exact Hdet.
    - destruct (handlers_catch timeout e) as (h & msg & Hfind & Hh).
      rewrite (@validate_transport_raises resource_json resource_dict
                 fhir_server_url type_argument profile_url timeout calls e
                 Hp Hpost h Hfind msg Hh) in Hrun.
      injection Hrun as <- _. reflexivity. }
  split; [exact Hdet|]. split.
  - intros Hnot. rewrite Hdet. destruct resource_dict; try reflexivity.
    discriminate Hnot.
  - intros d -> Habsent. rewrite Hdet. unfold detected_type.
    rewrite Habsent. reflexivity.
Qed.

Lemma parsed_payload_structure (resource_dict : json) :
  isinstance_str resource_dict = false ->
  parsed_payload resource_dict = Some resource_dict.
Proof. destruct resource_dict; try reflexivity. discriminate. Qed.

Lemma validate_by_payload (a b resource_dict : json)
    (fhir_server_url : string) (resource_type profile_url : option string)
    (timeout : Z) (calls : list event) :
  parsed_payload a = Some resource_dict ->
  parsed_payload b = Some resource_dict ->
  validate_fhir_resource a fhir_server_url resource_type profile_url timeout
    calls =
  validate_fhir_resource b fhir_server_url resource_type profile_url timeout
    calls.
Proof.
  intros Ha Hb. unfold validate_fhir_resource, try_except.
  fold (initial_state calls).
  rewrite (@try_body_parsed a resource_dict fhir_server_url resource_type
             profile_url timeout calls Ha).
  rewrite (@try_body_parsed b resource_dict fhir_server_url resource_type
             profile_url timeout calls Hb).
  reflexivity.
Qed.

(** X15. Giving the payload as text or as the structure the text decodes
    to makes no difference: when [json.loads] turns the text into a
    structure that is not itself a string, the two calls return the same
    result and make the same request. *)
Theorem payload_text_or_structure (text : string) (resource_dict : json)
    (fhir_server_url : string) (resource_type profile_url : option string)
    (timeout : Z) (calls : list event) :
  json_loads text = Return resource_dict ->
  isinstance_str resource_dict = false ->
  validate_fhir_resource (JStr text) fhir_server_url resource_type
    profile_url timeout calls =
  validate_fhir_resource resource_dict fhir_server_url resource_type
    profile_url timeout calls.
Proof.
  intros Hloads Hnot.
  apply (validate_by_payload _ _ resource_dict).
  - unfold parsed_payload. rewrite Hloads. reflexivity.
  - exact (parsed_payload_structure _ Hnot).
Qed.

Lemma rstrip_slash_slashes (n : nat) : rstrip_slash (slashes n) = "".
Proof.
  induction n as [|n IH]; [reflexivity|].
  cbn [slashes rstrip_slash]. rewrite IH. reflexivity.
Qed.

Lemma rstrip_slash_app_slashes (s : string) (n : nat) :
  rstrip_slash (s ++ slashes n) = rstrip_slash s.
Proof.
  induction s as [|c rest IH].
  - cbn [append]. rewrite rstrip_slash_slashes. reflexivity.
  - cbn [append rstrip_slash]. rewrite IH. reflexivity.
Qed.

(** X16. Trailing slashes of the server URL do not matter: the URL with
    any number of slashes appended gives the same validation URL, and
    stripping is idempotent. *)
Theorem trailing_slashes_do_not_matter (fhir_server_url : string) (n : nat)
    (resource_type : option string) (detected : json) :
  validation_url (fhir_server_url ++ slashes n) resource_type detected =
  validation_url fhir_server_url resource_type detected
  /\ rstrip_slash (rstrip_slash fhir_server_url) = rstrip_slash fhir_server_url.
Proof.
  split.
  - unfold validation_url. rewrite rstrip_slash_app_slashes. reflexivity.
  - destruct (rstrip_slash_spec fhir_server_url) as [_ [k Hk]].
    rewrite Hk at 2. rewrite rstrip_slash_app_slashes. reflexivity.
Qed.

(** X17. When [requests.post] raises an exception that is not of the HTTP
    library (the payload cannot be serialised, the timeout is refused), the
    call still returns: the result is invalid, its only error is the
    unexpected-error message with the text of the exception, and there is
    no outcome. *)
Theorem unexpected_exception_is_one_error (resource_json resource_dict : json)
    (fhir_server_url : string) (resource_type profile_url : option string)
    (timeout : Z) (calls : list event) (e : exn) :
  parsed_payload resource_json = Some resource_dict ->
  requests_post (request_for resource_dict fhir_server_url resource_type
                   profile_url timeout) = Raise e ->
  isinstance e RequestException = false ->
  validate_fhir_resource resource_json fhir_server_url resource_type
    profile_url timeout calls =
  (Return (mkValidationResult false
             ["Unexpected error during validation: " ++ exn_str e] [] []
             (detected_type resource_dict) (Some utcnow_isoformat) JNull),
   (calls ++ [Posted (request_for resource_dict fhir_server_url
                        resource_type profile_url timeout)])%list).
Proof.
  intros Hp Hpost Hclass.
  destruct (find_handler_unexpected timeout e Hclass) as (h & Hfind & Hrun).
  exact (@validate_transport_raises resource_json resource_dict
           fhir_server_url resource_type profile_url timeout calls e
           Hp Hpost h Hfind _ Hrun).
Qed.

(** X18. When [json()] raises an exception that is not a
    [JSONDecodeError], the inner clause lets it pass and an outer clause
    reports it: the result is invalid with one error and no outcome, and the
    error is the unexpected-error message when the exception is not of the
    HTTP library. *)
Theorem decoding_failure_of_another_class (resource_json resource_dict : json)
    (fhir_server_url : string) (resource_type profile_url : option string)
    (timeout : Z) (calls : list event) (resp : response) (e : exn) :
  parsed_payload resource_json = Some resource_dict ->
  requests_post (request_for resource_dict fhir_server_url resource_type
                   profile_url timeout) = Return resp ->
  decodes_body (status_code resp) = true ->
  json_method resp = Raise e ->
  isinstance e JSONDecodeError = false ->
  exists msg,
    validate_fhir_resource resource_json fhir_server_url resource_type
      profile_url timeout calls =
    (Return (mkValidationResult false [msg] [] []
               (detected_type resource_dict) (Some utcnow_isoformat) JNull),
     (calls ++ [Posted (request_for resource_dict fhir_server_url
                          resource_type profile_url timeout);
                Decoded resp])%list)
    /\ (isinstance e RequestException = false ->
        msg = "Unexpected error during validation: " ++ exn_str e).
Proof.
  intros Hp Hpost Hstatus Hjson Hclass.
  assert (Hrun : forall h msg,
    find_handler e (handlers timeout) = Some h ->
    (forall s, h e s =
               (Next tt,
                mkState (st_errors s ++ [msg]) (st_warnings s)
                  (st_information s) (st_detected_resource_type s)
                  (st_operation_outcome s) (st_calls s))) ->
    validate_fhir_resource resource_json fhir_server_url resource_type
      profile_url timeout calls =
    (Return (mkValidationResult false [msg] [] []
               (detected_type resource_dict) (Some utcnow_isoformat) JNull),
     (calls ++ [Posted (request_for resource_dict fhir_server_url
                          resource_type profile_url timeout);
                Decoded resp])%list)).
  { intros h msg Hfind Hh.
    rewrite (validate_response _ _ _ _ _ _ calls _ Hp Hpost).
    rewrite (handle_response_decoding _ Hstatus).
    unfold try_except.
    rewrite (parse_body_undecodable _ _ _ Hjson).
    cbn [find_handler]. rewrite Hclass, Hfind, Hh.
    unfold posted_state, final_result.
    cbn [st_errors st_warnings st_information st_detected_resource_type
         st_operation_outcome st_calls app length Nat.eqb].
    rewrite <- app_assoc. reflexivity. }
  destruct (isinstance e RequestException) eqn:Hreq.
  - destruct (handlers_catch timeout e) as (h & msg & Hfind & Hh).
    exists msg. split; [exact (Hrun h msg Hfind Hh)|].
    intros Habs. discriminate Habs.
  - destruct (find_handler_unexpected timeout e Hreq) as (h & Hfind & Hh).
    eexists. split; [exact (Hrun h _ Hfind Hh)|].
    intros _. reflexivity.
Qed.
End Pipeline.

(* ===================================================================== *)
(** ** The helper of environment.py *)
(* ===================================================================== *)

(** C10. For every result record, [valid] raises [AttributeError]: the
    record has no attribute named [valid], so the helper never returns a
    boolean. The flag is stored under the name [is_valid], which reads
    back. *)
Theorem valid_raises_attribute_error (r : ValidationResult) :
  valid r =
  Raise (mkExn AttributeError
           "'ValidationResult' object has no attribute 'valid'")
  /\ getattr r "is_valid" = Return (Data (JBool (is_valid r))).
Proof. split; reflexivity. Qed.

(* ===================================================================== *)
(** ** The properties at work in the example world *)
(* ===================================================================== *)

Module Examples.

Import Demo.

(** The patient is validated against a server that answers with an empty
    outcome: the result is valid and its flag agrees with its errors. *)
Lemma is_valid_iff_no_errors_witness :
  validate_fhir_resource json_loads (answering response_ok) py_repr now
    patient base_url None None 30 [] =
  (Return returned,
   [Posted (request_for py_repr patient base_url None None 30);
    Decoded response_ok])
  /\ is_valid returned = Nat.eqb (length (errors returned)) 0.
Proof.
  split; [reflexivity|].
  apply (@is_valid_iff_no_errors json_loads (answering response_ok) py_repr
           now patient base_url None None 30 []
           [Posted (request_for py_repr patient base_url None None 30);
            Decoded response_ok]
           returned).
  reflexivity.
Defined.

(** The server's answer cannot be decoded by [json()], and the failure is
    of a class the inner clause does not catch: the outer clause turns it
    into an error of the result. *)
Lemma validate_never_raises_witness :
  let network :=
    answering (mkResponse 200 "<html>"
                 (Raise (mkExn ValueError "Expecting value"))) in
  let s :=
    mkState [] [] [] (JStr "Patient") JNull
      [Posted (request_for py_repr patient base_url None None 30);
       Decoded (mkResponse 200 "<html>"
                  (Raise (mkExn ValueError "Expecting value")))] in
  try_body json_loads network py_repr now patient base_url None None 30
    (initial_state []) = (Throw (mkExn ValueError "Expecting value"), s)
  /\ exists r msg,
       validate_fhir_resource json_loads network py_repr now patient base_url
         None None 30 [] = (Return r, st_calls s)
       /\ errors r = (st_errors s ++ [msg])%list
       /\ is_valid r = false.
Proof.
  intros network s. split; [reflexivity|].
  apply (proj2 (@validate_never_raises json_loads network py_repr now
                  patient base_url None None 30 [])
           (mkExn ValueError "Expecting value") s).
  reflexivity.
Defined.

(** A payload that is not JSON. *)
Lemma unparseable_payload_short_circuits_witness :
  json_loads "{resourceType: Patient" =
  Raise (mkExn JSONDecodeError "Expecting value: line 1 column 1 (char 0)")
  /\ exists msg,
       validate_fhir_resource json_loads (answering response_ok) py_repr now
         (JStr "{resourceType: Patient") base_url (Some "Patient") None 30 [] =
       (Return (mkValidationResult false [msg] [] [] JNull (Some now) JNull),
        [])
       /\ (isinstance
             (mkExn JSONDecodeError "Expecting value: line 1 column 1 (char 0)")
             JSONDecodeError = true ->
           msg = "Invalid JSON format: "
                 ++ exn_str (mkExn JSONDecodeError
                               "Expecting value: line 1 column 1 (char 0)")).
Proof.
  split; [reflexivity|].
  apply (@unparseable_payload_short_circuits json_loads
           (answering response_ok) py_repr now
           "{resourceType: Patient"
           (mkExn JSONDecodeError "Expecting value: line 1 column 1 (char 0)")
           base_url (Some "Patient") None 30 []).
  reflexivity.
Defined.

(** The server does not answer within the 30 seconds allowed. *)
Lemma transport_failure_result_witness :
  parsed_payload json_loads patient = Some patient
  /\ failing read_timeout (request_for py_repr patient base_url None None 30)
     = Raise read_timeout
  /\ isinstance read_timeout RequestException = true
  /\ exists msg,
       validate_fhir_resource json_loads (failing read_timeout) py_repr now
         patient base_url None None 30 [] =
       (Return (mkValidationResult false [msg] [] []
                  (detected_type patient) (Some now) JNull),
        ([] ++ [Posted (request_for py_repr patient base_url None None 30)])%list)
       /\ (isinstance read_timeout Timeout = true ->
           msg = "Request to FHIR server timed out after "
                 ++ str_of_int 30 ++ " seconds")
       /\ (isinstance read_timeout Timeout = false ->
           isinstance read_timeout ConnectionError = true ->
           msg = "Could not connect to FHIR server - check URL and network connectivity")
       /\ (isinstance read_timeout Timeout = false ->
           isinstance read_timeout ConnectionError = false ->
           msg = "Request to FHIR server failed: " ++ exn_str read_timeout).
Proof.
  split; [reflexivity|]. split; [reflexivity|]. split; [reflexivity|].
  apply (@transport_failure_result json_loads (failing read_timeout) py_repr
           now patient patient base_url None None 30 [] read_timeout);
    reflexivity.
Defined.

(** The server has no validation endpoint at the URL, and says so with a
    body that would decode. *)
Lemma not_found_is_not_parsed_witness :
  parsed_payload json_loads patient = Some patient
  /\ answering response_not_found
       (request_for py_repr patient base_url None None 30)
     = Return response_not_found
  /\ status_code response_not_found = 404
  /\ validate_fhir_resource json_loads (answering response_not_found) py_repr
       now patient base_url None None 30 [] =
     (Return (mkValidationResult false
                ["FHIR server validation endpoint not found - check server URL and resource type"]
                [] [] (detected_type patient) (Some now) JNull),
      ([] ++ [Posted (request_for py_repr patient base_url None None 30)])%list).
Proof.
  split; [reflexivity|]. split; [reflexivity|]. split; [reflexivity|].
  apply (@not_found_is_not_parsed json_loads (answering response_not_found)
           py_repr now patient patient base_url None None 30 []
           response_not_found);
    reflexivity.
Defined.

(** A document with a warning, an error, an issue of the unknown severity
    [hint] and an information: the hint is in no bucket, and the error makes
    the result invalid among the others. *)
Lemma issues_bucketed_by_severity_witness :
  well_formed_outcome outcome_mixed = true
  /\ _parse_operation_outcome py_repr outcome_mixed =
     Return (false,
             ["Error: Patient.name is required - Location: Patient.name, line 3"],
             ["Warning: Missing optional field"],
             ["Info: Validation issue (informational)"])
  /\ exists es ws infos,
       _parse_operation_outcome py_repr outcome_mixed =
       Return (false, es, ws, infos)
       /\ In (("Error: " ++ message_of py_repr issue_error)%string) es.
Proof.
  split; [reflexivity|].
  destruct (@issues_bucketed_by_severity py_repr outcome_mixed eq_refl)
    as [Hparse Herror].
  split.
  - rewrite Hparse. reflexivity.
  - apply (Herror issue_error).
    + right. left. reflexivity.
    + reflexivity.
Defined.

(** An outcome without issues, with the list present. *)
Lemma empty_issue_list_is_success_witness :
  eq_str (dict_get [("resourceType", JStr "OperationOutcome"); ("issue", JList [])]
            "resourceType" JNull) "OperationOutcome" = true
  /\ dict_get [("resourceType", JStr "OperationOutcome"); ("issue", JList [])]
       "issue" (JList []) = JList []
  /\ _parse_operation_outcome py_repr outcome_empty =
     Return (true, [], [], ["Validation completed successfully"]).
Proof.
  split; [reflexivity|]. split; [reflexivity|].
  apply (@empty_issue_list_is_success py_repr
           [("resourceType", JStr "OperationOutcome"); ("issue", JList [])]).
  - reflexivity.
  - right. reflexivity.
Defined.

(** The example of the specification, with a payload that declares
    another type and a base URL written with a trailing slash. *)
Lemma validation_url_construction_witness :
  String.eqb "Patient" "" = false
  /\ validation_url py_repr "https://example.org/fhir/" (Some "Patient")
       (JStr "Observation") =
     rstrip_slash "https://example.org/fhir/" ++ "/" ++ "Patient" ++ "/$validate"
  /\ rstrip_slash "https://example.org/fhir/" = "https://example.org/fhir"
  /\ req_params (request_for py_repr patient base_url (Some "Patient")
                   (Some profile) 30) = [("profile", profile)].
Proof.
  split; [reflexivity|].
  pose proof (@validation_url_construction json_loads (answering response_ok)
                py_repr now "https://example.org/fhir/" (Some "Patient")
                (Some profile) (JStr "Observation")) as H.
  split; [apply (proj1 H "Patient"); reflexivity|].
  split; reflexivity.
Defined.

(** C8 fails as stated: the empty string is given as the explicit
    resource type and the payload declares [Patient]; the URL carries the
    detected type, not the argument, in the function that builds it and in
    the request the call posts. *)
Lemma empty_resource_type_yields_to_detected :
  validation_url py_repr base_url (Some "") (detected_type patient) =
  "https://example.org/fhir/Patient/$validate"
  /\ validation_url py_repr base_url (Some "") (detected_type patient) <>
     rstrip_slash base_url ++ "/" ++ "" ++ "/$validate"
  /\ snd (validate_fhir_resource json_loads (answering response_ok) py_repr
            now patient base_url (Some "") None 30 []) =
     [Posted (mkRequest "https://example.org/fhir/Patient/$validate" patient
                headers [] 30);
      Decoded response_ok].
Proof.
  split; [reflexivity|]. split; [|reflexivity].
  intros Habs. vm_compute in Habs. discriminate Habs.
Qed.

(** The result returned for the patient carries the time of the call. *)
Lemma timestamp_set_at_construction_fields_assignable_witness :
  validate_fhir_resource json_loads (answering response_ok) py_repr now
    patient base_url None None 30 [] =
  (Return returned,
   [Posted (request_for py_repr patient base_url None None 30);
    Decoded response_ok])
  /\ timestamp returned = Some now.
Proof.
  split; [reflexivity|].
  apply (proj1 (proj2 (proj2
           (@timestamp_set_at_construction_fields_assignable json_loads
              (answering response_ok) py_repr now)))
           patient base_url None None 30 []
           [Posted (request_for py_repr patient base_url None None 30);
            Decoded response_ok]
           returned).
  reflexivity.
Defined.

(** C9 fails as stated: the record the call returned for the patient is
    assigned a new timestamp, the assignment succeeds, and the timestamp is
    no longer the one set at construction. *)
Lemma returned_result_is_mutable :
  fst (validate_fhir_resource json_loads (answering response_ok) py_repr now
         patient base_url None None 30 []) = Return returned
  /\ timestamp returned = Some now
  /\ setattr returned (Set_timestamp (Some "1970-01-01T00:00:00")) =
     Return (mkValidationResult true [] []
               ["Validation completed successfully"] (JStr "Patient")
               (Some "1970-01-01T00:00:00") outcome_empty)
  /\ Some "1970-01-01T00:00:00" <> timestamp returned.
Proof.
  split; [reflexivity|]. split; [reflexivity|]. split; [reflexivity|].
  discriminate.
Qed.

(** The witnesses of the further properties. *)

Lemma well_formed_outcome_end_to_end_witness :
  validate_fhir_resource json_loads (answering response_mixed) py_repr now
    patient base_url None None 30 [] =
  (Return (mkValidationResult false
             ["Error: Patient.name is required - Location: Patient.name, line 3"]
             ["Warning: Missing optional field"]
             ["Info: Validation issue (informational)"]
             (JStr "Patient") (Some now) outcome_mixed),
   [Posted (request_for py_repr patient base_url None None 30);
    Decoded response_mixed]).
Proof.
  rewrite (@well_formed_outcome_end_to_end json_loads
             (answering response_mixed) py_repr now patient patient base_url
             None None 30 [] response_mixed outcome_mixed
             eq_refl eq_refl eq_refl eq_refl eq_refl).
  reflexivity.
Defined.

Lemma undecodable_body_is_one_error_witness :
  isinstance not_json JSONDecodeError = true
  /\ exists msg,
       validate_fhir_resource json_loads (answering response_bad_request_html)
         py_repr now patient base_url None None 30 [] =
       (Return (mkValidationResult false [msg] [] [] (detected_type patient)
                  (Some now) JNull),
        ([] ++ [Posted (request_for py_repr patient base_url None None 30);
                Decoded response_bad_request_html])%list)
       /\ (status_code response_bad_request_html = 200 ->
           msg = "Server returned invalid JSON response")
       /\ (status_code response_bad_request_html <> 200 ->
           msg = "Validation failed with status "
                 ++ str_of_int (status_code response_bad_request_html) ++ ": "
                 ++ text response_bad_request_html).
Proof.
  split; [reflexivity|].
  apply (@undecodable_body_is_one_error json_loads
           (answering response_bad_request_html) py_repr now patient patient
           base_url None None 30 [] response_bad_request_html not_json);
    reflexivity.
Defined.

Lemma other_status_is_reported_witness :
  decodes_body (status_code response_server_error) = false
  /\ validate_fhir_resource json_loads (answering response_server_error)
       py_repr now patient base_url None None 30 [] =
     (Return (mkValidationResult false
                ["FHIR server returned status "
                 ++ str_of_int (status_code response_server_error) ++ ": "
                 ++ text response_server_error]
                [] [] (detected_type patient) (Some now) JNull),
      ([] ++ [Posted (request_for py_repr patient base_url None None 30)])%list).
Proof.
  split; [reflexivity|].
  apply (@other_status_is_reported json_loads
           (answering response_server_error) py_repr now patient patient
           base_url None None 30 [] response_server_error);
    try reflexivity.
  intros H. discriminate H.
Defined.

Lemma not_an_outcome_document_witness :
  eq_str (dict_get [("resourceType", JStr "Bundle"); ("type", JStr "searchset")]
            "resourceType" JNull) "OperationOutcome" = false
  /\ validate_fhir_resource json_loads (answering response_bundle) py_repr now
       patient base_url None None 30 [] =
     (Return (mkValidationResult false
                [if isinstance_dict bundle
                 then "Expected OperationOutcome resource from validation endpoint"
                 else "Invalid OperationOutcome format"]
                [] [] (detected_type patient) (Some now) bundle),
      ([] ++ [Posted (request_for py_repr patient base_url None None 30);
              Decoded response_bundle])%list).
Proof.
  split; [reflexivity|].
  apply (@not_an_outcome_document json_loads (answering response_bundle)
           py_repr now patient patient base_url None None 30 []
           response_bundle bundle);
    reflexivity.
Defined.

Lemma parser_failure_is_one_error_witness :
  _parse_operation_outcome py_repr outcome_bad_location =
  Raise (mkExn TypeError "can only join an iterable")
  /\ validate_fhir_resource json_loads (answering response_bad_location)
       py_repr now patient base_url None None 30 [] =
     (Return (mkValidationResult false
                ["Unexpected error during validation: "
                 ++ exn_str (mkExn TypeError "can only join an iterable")]
                [] [] (detected_type patient) (Some now) outcome_bad_location),
      ([] ++ [Posted (request_for py_repr patient base_url None None 30);
              Decoded response_bad_location])%list).
Proof.
  split; [reflexivity|].
  apply (@parser_failure_is_one_error json_loads
           (answering response_bad_location) py_repr now patient patient
           base_url None None 30 [] response_bad_location outcome_bad_location
           (mkExn TypeError "can only join an iterable"));
    reflexivity.
Defined.

Lemma parser_flag_agrees_with_errors_witness :
  _parse_operation_outcome py_repr bundle =
  Return (false,
          ["Expected OperationOutcome resource from validation endpoint"],
          [], [])
  /\ false = is_nil ["Expected OperationOutcome resource from validation endpoint"].
Proof.
  split; [reflexivity|].
  apply (@parser_flag_agrees_with_errors py_repr bundle false
           ["Expected OperationOutcome resource from validation endpoint"]
           [] []).
  reflexivity.
Defined.

Lemma ill_typed_diagnostics_raises_witness :
  truthy_non_string (dict_get issue_bad_diagnostics "diagnostics" (JStr ""))
  = true
  /\ exists e,
       _parse_operation_outcome py_repr (JDict outcome_bad_diagnostics) = Raise e
       /\ exn_cls e = TypeError.
Proof.
  split; [reflexivity|].
  apply (@ill_typed_diagnostics_raises py_repr outcome_bad_diagnostics
           issue_bad_diagnostics [issue_error; JDict issue_bad_diagnostics]).
  - reflexivity.
  - reflexivity.
  - right. left. reflexivity.
  - reflexivity.
Defined.

Lemma missing_severity_is_error_witness :
  well_formed_outcome outcome_no_severity = true
  /\ dict_contains issue_no_severity "severity" = false
  /\ exists es ws infos,
       _parse_operation_outcome py_repr outcome_no_severity =
       Return (false, es, ws, infos)
       /\ In (("Error: " ++ message_of py_repr (JDict issue_no_severity))%string)
            es.
Proof.
  split; [reflexivity|]. split; [reflexivity|].
  apply (@missing_severity_is_error py_repr outcome_no_severity
           issue_no_severity).
  - reflexivity.
  - right. left. reflexivity.
  - reflexivity.
Defined.

Lemma issue_message_fallback_witness :
  dict_contains issue_bare "details" = false
  /\ dict_contains issue_bare "diagnostics" = false
  /\ dict_contains issue_bare "location" = false
  /\ issue_message py_repr issue_bare = Return "Validation issue (invalid)".
Proof.
  split; [reflexivity|]. split; [reflexivity|]. split; [reflexivity|].
  rewrite (proj1 (@issue_message_fallback py_repr issue_bare
                    eq_refl eq_refl eq_refl)).
  reflexivity.
Defined.

Lemma success_note_iff_no_issue_witness :
  well_formed_outcome outcome_hints = true
  /\ _parse_operation_outcome py_repr outcome_hints = Return (true, [], [], [])
  /\ (In "Validation completed successfully" [] <-> issue_list outcome_hints = []).
Proof.
  split; [reflexivity|]. split; [reflexivity|].
  apply (@success_note_iff_no_issue py_repr outcome_hints true [] [] []);
    reflexivity.
Defined.

Lemma unknown_severities_leave_no_trace_witness :
  well_formed_outcome outcome_hints = true
  /\ issue_list outcome_hints <> []
  /\ _parse_operation_outcome py_repr outcome_hints = Return (true, [], [], []).
Proof.
  split; [reflexivity|]. split; [discriminate|].
  apply (@unknown_severities_leave_no_trace py_repr outcome_hints).
  - reflexivity.
  - discriminate.
  - intros issue b [<- | [<- | []]]; destruct b; reflexivity.
Defined.

Lemma one_message_per_known_issue_witness :
  well_formed_outcome outcome_mixed = true
  /\ (length ["Error: Patient.name is required - Location: Patient.name, line 3"]
      + length ["Warning: Missing optional field"]
      + length ["Info: Validation issue (informational)"])%nat =
     (length (filter has_known_severity (issue_list outcome_mixed))
      + (if is_nil (issue_list outcome_mixed) then 1 else 0))%nat
  /\ (length (filter has_known_severity (issue_list outcome_mixed))
      <= length (issue_list outcome_mixed))%nat.
Proof.
  split; [reflexivity|].
  apply (@one_message_per_known_issue py_repr outcome_mixed false
           ["Error: Patient.name is required - Location: Patient.name, line 3"]
           ["Warning: Missing optional field"]
           ["Info: Validation issue (informational)"]);
    reflexivity.
Defined.

Lemma one_request_per_call_witness :
  parsed_payload json_loads (JStr "{}") = Some (JDict [])
  /\ snd (validate_fhir_resource json_loads (answering response_server_error)
            py_repr now (JStr "{}") base_url None None 30 []) =
     [Posted (request_for py_repr (JDict []) base_url None None 30)].
Proof.
  split; [reflexivity|].
  rewrite (@one_request_per_call json_loads (answering response_server_error)
             py_repr now (JStr "{}") (JDict []) base_url None None 30 []
             eq_refl).
  reflexivity.
Defined.

Lemma resource_type_is_detected_witness :
  parsed_payload json_loads patient = Some patient
  /\ resource_type
       (mkValidationResult false
          ["Request to FHIR server timed out after 30 seconds"] [] []
          (JStr "Patient") (Some now) JNull) = detected_type patient.
Proof.
  split; [reflexivity|].
  apply (proj1 (@resource_type_is_detected json_loads (failing read_timeout)
                  py_repr now patient patient base_url None None 30 []
                  [Posted (request_for py_repr patient base_url None None 30)]
                  _ eq_refl eq_refl)).
Defined.

Lemma payload_text_or_structure_witness :
  json_loads "{}" = Return (JDict [])
  /\ isinstance_str (JDict []) = false
  /\ validate_fhir_resource json_loads (answering response_ok) py_repr now
       (JStr "{}") base_url None None 30 [] =
     validate_fhir_resource json_loads (answering response_ok) py_repr now
       (JDict []) base_url None None 30 [].
Proof.
  split; [reflexivity|]. split; [reflexivity|].
  apply (@payload_text_or_structure json_loads (answering response_ok)
           py_repr now "{}" (JDict []) base_url None None 30 []);
    reflexivity.
Defined.

Lemma unexpected_exception_is_one_error_witness :
  isinstance unserialisable RequestException = false
  /\ validate_fhir_resource json_loads (failing unserialisable) py_repr now
       patient base_url None None 30 [] =
     (Return (mkValidationResult false
                ["Unexpected error during validation: " ++ exn_str unserialisable]
                [] [] (detected_type patient) (Some now) JNull),
      ([] ++ [Posted (request_for py_repr patient base_url None None 30)])%list).
Proof.
  split; [reflexivity|].
  apply (@unexpected_exception_is_one_error json_loads (failing unserialisable)
           py_repr now patient patient base_url None None 30 []
           unserialisable);
    reflexivity.
Defined.

Lemma decoding_failure_of_another_class_witness :
  isinstance broken_decoder JSONDecodeError = false
  /\ exists msg,
       validate_fhir_resource json_loads (answering response_broken_decoder)
         py_repr now patient base_url None None 30 [] =
       (Return (mkValidationResult false [msg] [] [] (detected_type patient)
                  (Some now) JNull),
        ([] ++ [Posted (request_for py_repr patient base_url None None 30);
                Decoded response_broken_decoder])%list)
       /\ (isinstance broken_decoder RequestException = false ->
           msg = "Unexpected error during validation: "
                 ++ exn_str broken_decoder).
Proof.
  split; [reflexivity|].
  apply (@decoding_failure_of_another_class json_loads
           (answering response_broken_decoder) py_repr now patient patient
           base_url None None 30 [] response_broken_decoder broken_decoder);
    reflexivity.
Defined.

End Examples.
